(** * s3rpc: request/response calls over an object store and a queue

    A shallow embedding of the Go package [s3rpc] (files [common.go],
    [server.go], [client.go]) and the properties of its correlation and
    polling protocol.

    Go strings are byte sequences and are modelled by [string] (a list of
    8-bit characters).  A Go value of type [error] is modelled by
    [option error] where [None] is [nil] and [error] is the text that
    [err.Error()] gives.  The services the code talks to (SQS, S3, the file
    system, the clock behind [context.Context]) are an abstract world: a
    state type [W] and a record of operations on it. *)

From Stdlib Require Import Ascii String ZArith.
From stdpp Require Import base option list strings gmap pretty.

Local Open Scope string_scope.
Local Open Scope list_scope.

(** ** Go standard library functions used by the package *)

Module strings.

(** [strings.HasPrefix(s, prefix)]. *)
Fixpoint HasPrefix (s prefix : string) : bool :=
  match prefix, s with
  | EmptyString, _ => true
  | String _ _, EmptyString => false
  | String c prefix', String d s' =>
      if Ascii.eqb c d then HasPrefix s' prefix' else false
  end.

(** [strings.Contains(s, substr)]: [substr] occurs somewhere in [s]. *)
Fixpoint Contains (s substr : string) : bool :=
  if HasPrefix s substr then true
  else match s with
       | EmptyString => false
       | String _ s' => Contains s' substr
       end.

(** [strings.Split(s, sep)] for a separator of one byte, the only way the
    package calls it ([strings.Split(m.Key, "/")]).  The result has one
    more element than [s] has separators; [Split("", "/")] is [[""]]. *)
Fixpoint Split (s : string) (sep : ascii) : list string :=
  match s with
  | EmptyString => [EmptyString]
  | String c s' =>
      if Ascii.eqb c sep then EmptyString :: Split s' sep
      else match Split s' sep with
           | seg :: rest => String c seg :: rest
           | [] => [String c EmptyString]
           end
  end.

(** [strings.LastIndexByte(s, c)], with [None] for Go's [-1]. *)
Fixpoint LastIndexByte (s : string) (c : ascii) : option nat :=
  match s with
  | EmptyString => None
  | String d s' =>
      match LastIndexByte s' c with
      | Some i => Some (S i)
      | None => if Ascii.eqb d c then Some 0 else None
      end
  end.

(** The slice expression [s[n:]]. *)
Fixpoint drop (n : nat) (s : string) : string :=
  match n, s with
  | O, _ => s
  | S n', String _ s' => drop n' s'
  | S _, EmptyString => EmptyString
  end.

(** Number of bytes of [s] equal to [c]. *)
Fixpoint CountByte (s : string) (c : ascii) : nat :=
  match s with
  | EmptyString => 0
  | String d s' => (if Ascii.eqb d c then 1 else 0) + CountByte s' c
  end.

End strings.

Module path.

Definition slash : ascii := "/"%char.

(** The loop [for len(path) > 0 && path[len(path)-1] == '/'] of
    [path.Base]: drop every trailing slash. *)
Fixpoint stripTrailingSlashes (p : string) : string :=
  match p with
  | EmptyString => EmptyString
  | String c p' =>
      match stripTrailingSlashes p' with
      | EmptyString => if Ascii.eqb c slash then EmptyString
                       else String c EmptyString
      | r => String c r
      end
  end.

(** [path.Base(path)]: the last element of [path]; ["."] for the empty
    path and ["/"] for a path of slashes only.  On the platforms where
    the separator is ['/'], [filepath.Base] is the same function. *)
Definition Base (p : string) : string :=
  if String.eqb p "" then "."
  else
    let p1 := stripTrailingSlashes p in
    let p2 := match strings.LastIndexByte p1 slash with
              | Some i => strings.drop (S i) p1
              | None => p1
              end in
    if String.eqb p2 "" then "/" else p2.

End path.

Module filepath.
Definition Base : string -> string := path.Base.
End filepath.

(** ** Data model *)

(** The text of a Go [error]; [None : option error] is [nil]. *)
Definition error : Type := string.

(** A Go pair [(T, error)] whose first component the callers read only when
    the error is [nil]. *)
Inductive Result (A : Type) : Type :=
| Ok (a : A)
| Err (e : error).
Arguments Ok {A} a.
Arguments Err {A} e.

Definition is_Ok {A} (r : Result A) : bool :=
  match r with Ok _ => true | Err _ => false end.

Definition is_nil (e : option error) : bool :=
  match e with None => true | Some _ => false end.

Definition toServer : string := "to_server".
Definition toClient : string := "to_client".
Definition defaultRegion : string := "eu-north-1".
Definition visibilitySeconds : Z := 7.

(** [time.Duration] counts nanoseconds. *)
Definition Second : Z := 1000000000.
Definition Minute : Z := 60 * Second.

(** [type message struct]. *)
Record message : Type := Message {
  Bucket : string;
  Key : string;
  ReceiptHandle : string
}.

(** The part of [type s3Object struct] that [Receive] reads:
    [s3.Bucket.Name] and [s3.Object.Key]. *)
Record s3Object : Type := S3Object {
  Bucket_Name : string;
  Object_Key : string
}.

(** [type messageBody struct]: the [Records] array, each record reduced to its
    [S3] field. *)
Record messageBody : Type := MessageBody {
  Records : list s3Object
}.

(** A message as SQS hands it out.  The body is represented by what
    [json.Unmarshal] makes of it: a [messageBody] or a decoding error.  The
    code reads body and receipt handle through pointers ([*m.Body],
    [*m.ReceiptHandle]), which are taken to be set. *)
Record sqsMessage : Type := SqsMessage {
  Body : Result messageBody;
  sqs_ReceiptHandle : string
}.

(** [type Input struct] and [type Output struct].  A nil map and an empty map
    are both the empty [gmap]. *)
Module Input.
Record t : Type := mk { Filename : string; Metadata : gmap string string }.
End Input.

Module Output.
Record t : Type := mk { Filename : string; Metadata : gmap string string }.
(** The zero value [Output{}]. *)
Definition zero : t := mk "" ∅.
End Output.

(** [type AWSConfig struct]. *)
Module AWSConfig.
Record t : Type := mk {
  Region : string;
  Bucket : string;
  AccessKeyID : string;
  SecretAccessKey : string
}.
End AWSConfig.

(** The immutable fields of [type common struct]; its [closeOnce] is mutable
    and lives in the state, the two service clients are the world. *)
Record common : Type := Common {
  tempDir : string;
  bucket : string;
  queue : string
}.

(** What an object fetched from S3 carries. *)
Record s3GetObjectOutput : Type := GetObjectOutput {
  o_Body : string;
  o_Metadata : gmap string string
}.

(** ** Events

    Every call that leaves the package is recorded, with its arguments and
    whether it succeeded, in the order the calls are made. *)
Inductive Call : Type :=
| ReceiveMessage (QueueUrl : string)
    (MaxNumberOfMessages VisibilityTimeout WaitTimeSeconds : Z)
| DeleteMessage (QueueUrl receiptHandle : string)
| ChangeMessageVisibility (QueueUrl receiptHandle : string)
    (VisibilityTimeout : Z)
| GetObject (Bucket Key : string)
| DeleteObject (Bucket Key : string)
| Upload (Bucket Key filename : string) (Metadata : gmap string string)
| Open (name : string)
| Copy (dst : string)
| CreateTemp (dir pattern : string)
| MkdirTemp (dir pattern : string)
| Remove (name : string)
| RemoveAll (path : string)
| Sleep (d : Z)
| WithTimeout (d : Z)
| NewUUID
| Handle (op : string) (input : Input.t)
| CloseQuit.

Record Event : Type := Ev { call : Call; ok : bool }.

(** ** The world

    [W] is the state of everything outside the package.  Each operation may
    change it and may fail.  [strconv_Quote] is the quoting of the [%q] verb
    of [fmt]; it is pure. *)
Record Runtime (W : Type) : Type := {
  ctx_Done : W -> bool;
  context_WithTimeout : Z -> W -> W;
  uuid_New : W -> string * W;
  strconv_Quote : string -> string;
  sqs_ReceiveMessage : string -> Z -> Z -> Z -> W -> Result (list sqsMessage) * W;
  sqs_DeleteMessage : string -> string -> W -> option error * W;
  sqs_ChangeMessageVisibility : string -> string -> Z -> W -> option error * W;
  s3_GetObject : string -> string -> W -> Result s3GetObjectOutput * W;
  s3_DeleteObject : string -> string -> W -> option error * W;
  s3_Upload : string -> string -> string -> gmap string string -> W
              -> option error * W;
  io_Copy : string -> string -> W -> option error * W;
  os_Open : string -> W -> option error * W;
  os_CreateTemp : string -> string -> W -> Result string * W;
  os_MkdirTemp : string -> string -> W -> Result string * W;
  os_Remove : string -> W -> option error * W;
  os_RemoveAll : string -> W -> option error * W;
  time_Sleep : Z -> W -> W
}.
Arguments ctx_Done {W} _ _.
Arguments context_WithTimeout {W} _ _ _.
Arguments uuid_New {W} _ _.
Arguments strconv_Quote {W} _ _.
Arguments sqs_ReceiveMessage {W} _ _ _ _ _ _.
Arguments sqs_DeleteMessage {W} _ _ _ _.
Arguments sqs_ChangeMessageVisibility {W} _ _ _ _ _.
Arguments s3_GetObject {W} _ _ _ _.
Arguments s3_DeleteObject {W} _ _ _ _.
Arguments s3_Upload {W} _ _ _ _ _ _.
Arguments io_Copy {W} _ _ _ _.
Arguments os_Open {W} _ _ _.
Arguments os_CreateTemp {W} _ _ _ _.
Arguments os_MkdirTemp {W} _ _ _ _.
Arguments os_Remove {W} _ _ _.
Arguments os_RemoveAll {W} _ _ _.
Arguments time_Sleep {W} _ _ _.

(** ** The monad of the package: state, event log, panics *)

(** The state a computation threads: the world, the log, and the two mutable
    fields of a [Server] ([quit] closed or not, [closeOnce] used or not). *)
Record State (W : Type) : Type := St {
  world : W;
  trace : list Event;
  quit_closed : bool;
  closeOnce_done : bool
}.
Arguments St {W} _ _ _ _.
Arguments world {W} _.
Arguments trace {W} _.
Arguments quit_closed {W} _.
Arguments closeOnce_done {W} _.

(** A computation ends with a value, panics, or (a loop given too little
    fuel) has not ended yet. *)
Inductive Res (A : Type) : Type :=
| Done (a : A)
| Panic (msg : string)
| Running.
Arguments Done {A} a.
Arguments Panic {A} msg.
Arguments Running {A}.

Definition M (W A : Type) : Type := State W -> Res A * State W.

Definition ret {W A} (a : A) : M W A := fun st => (Done a, st).

Definition bind {W A B} (m : M W A) (k : A -> M W B) : M W B :=
  fun st =>
    match m st with
    | (Done a, st') => k a st'
    | (Panic msg, st') => (Panic msg, st')
    | (Running, st') => (Running, st')
    end.

Definition panic {W A} (msg : string) : M W A := fun st => (Panic msg, st).

Notation "x <- m ;; k" := (bind m (fun x => k))
  (at level 100, m at next level, right associativity).
Notation "m ;;; k" := (bind m (fun _ => k))
  (at level 100, right associativity).

(** Run a world operation and log it. *)
Definition perform {W A} (c : Call) (succeeded : A -> bool)
    (op : W -> A * W) : M W A :=
  fun st =>
    let '(a, w) := op (world st) in
    (Done a, St w (trace st ++ [Ev c (succeeded a)])
                (quit_closed st) (closeOnce_done st)).

(** A world operation that has no result. *)
Definition perform_ {W} (c : Call) (op : W -> W) : M W unit :=
  perform c (fun _ => true) (fun w => (tt, op w)).

(** [close(ch)] on the [quit] channel: closing a closed channel panics. *)
Definition close_quit {W} : M W unit :=
  fun st =>
    if quit_closed st then (Panic "close of closed channel", st)
    else (Done tt, St (world st) (trace st ++ [Ev CloseQuit true])
                      true (closeOnce_done st)).

(** [closeOnce.Do(f)]: [f] runs on the first call only, and the flag is set
    when [f] is over, however it ends.  The result is what [f] gave, or
    [None] when [f] did not run. *)
Definition closeOnce_Do {W A} (f : M W A) : M W (option A) :=
  fun st =>
    if closeOnce_done st then (Done None, st)
    else
      let '(r, st') := f st in
      let st'' := St (world st') (trace st') (quit_closed st') true in
      match r with
      | Done a => (Done (Some a), st'')
      | Panic msg => (Panic msg, st'')
      | Running => (Running, st'')
      end.

(** ** common.go *)

Section Package.

Context {W : Type} (R : Runtime W).

(** The body of the loop of [common.Receive] over [result.Messages]. *)
Fixpoint decodeMessages (raw : list sqsMessage) (messages : list message)
  : Result (list message) :=
  match raw with
  | [] => Ok messages
  | m :: raw' =>
      match Body m with
      | Err err => Err err
      | Ok messageBody =>
          match Records messageBody with
          | [] => decodeMessages raw' messages
          | [record] =>
              decodeMessages raw'
                (messages ++ [Message (Bucket_Name record)
                                      (Object_Key record)
                                      (sqs_ReceiptHandle m)])
          | records =>
              Err ("expected only one record, got "
                   +:+ pretty (length records))
          end
      end
  end.

Definition Receive (c : common) : M W (Result (list message)) :=
  result <- perform (ReceiveMessage (queue c) 5 visibilitySeconds 20) is_Ok
              (sqs_ReceiveMessage R (queue c) 5 visibilitySeconds 20) ;;
  match result with
  | Err err => ret (Err err)
  | Ok raw => ret (decodeMessages raw [])
  end.

Definition deleteMessage (c : common) (receiptHandle : string)
  : M W (option error) :=
  perform (DeleteMessage (queue c) receiptHandle) is_nil
    (sqs_DeleteMessage R (queue c) receiptHandle).

Definition deleteObject (c : common) (key : string) : M W (option error) :=
  perform (DeleteObject (bucket c) key) is_nil
    (s3_DeleteObject R (bucket c) key).

(** [f] is the name of the open file the object is copied into. *)
Definition getObject (c : common) (f key : string)
  : M W (Result (gmap string string)) :=
  o <- perform (GetObject (bucket c) key) is_Ok
         (s3_GetObject R (bucket c) key) ;;
  match o with
  | Err err => ret (Err err)
  | Ok o =>
      err <- perform (Copy f) is_nil (io_Copy R f (o_Body o)) ;;
      match err with
      | Some err => ret (Err err)
      | None => ret (Ok (o_Metadata o))
      end
  end.

(** [ChangeMessageVisibility] with [VisibilityTimeout: 0]. *)
Definition releaseMessage (c : common) (receiptHandle : string)
  : M W (option error) :=
  perform (ChangeMessageVisibility (queue c) receiptHandle 0) is_nil
    (sqs_ChangeMessageVisibility R (queue c) receiptHandle 0).

Definition upload (c : common) (filename key : string)
    (metaData : gmap string string) : M W (option error) :=
  err <- perform (Open filename) is_nil (os_Open R filename) ;;
  match err with
  | Some err => ret (Some err)
  | None =>
      err <- perform (Upload (bucket c) key filename metaData) is_nil
               (s3_Upload R (bucket c) key filename metaData) ;;
      match err with
      | Some err => ret (Some ("upload: " +:+ err))
      | None => ret None
      end
  end.

(** [fmt.Errorf("expected bucket %q, got %q", expected, got)]. *)
Definition bucketError (expected got : string) : error :=
  "expected bucket " +:+ strconv_Quote R expected
    +:+ ", got " +:+ strconv_Quote R got.

(** ** server.go *)

(** A handler reads and writes files, so it acts on the world. *)
Definition Handler : Type := Input.t -> W -> Result Output.t * W.

Record Server : Type := {
  handlers : gmap string Handler;
  pollIntervall : Z;
  s_common : common
}.

(** How the body of a [for _, m := range ms] loop ends: it goes on to the
    next message, or it returns from the polling function with an error. *)
Inductive Step : Type :=
| Continue
| Abort (err : error).

(** [strings.Split(m.Key, "/")[1]]; [None] when the index is out of
    range. *)
Definition operationOf (key : string) : option string :=
  strings.Split key path.slash !! 1%nat.

(** The function literal of [ListenAndServe] that stages the request,
    runs the handler and uploads the result. *)
Definition serveRequest (s : Server) (m : message) (op : string)
    (handle : Handler) (baseKey : string) : M W (option error) :=
  f <- perform (CreateTemp (tempDir (s_common s)) ("*_" +:+ baseKey)) is_Ok
         (os_CreateTemp R (tempDir (s_common s)) ("*_" +:+ baseKey)) ;;
  match f with
  | Err err => ret (Some ("tempfile: " +:+ err))
  | Ok f =>
      err <- (metaData <- getObject (s_common s) f (Key m) ;;
              match metaData with
              | Err err => ret (Some err)
              | Ok metaData =>
                  let input := Input.mk f metaData in
                  result <- perform (Handle op input) is_Ok (handle input) ;;
                  match result with
                  | Err err => ret (Some ("handle: " +:+ err))
                  | Ok result =>
                      let key := toClient +:+ "/" +:+ op +:+ "/" +:+ baseKey in
                      err <- upload (s_common s) (Output.Filename result) key
                               (Output.Metadata result) ;;
                      match err with
                      | Some err => ret (Some err)
                      | None => ret None
                      end
                  end
              end) ;;
      (* defer os.Remove(f.Name()) *)
      _ <- perform (Remove f) is_nil (os_Remove R f) ;;
      ret err
  end.

(** The body of the loop over the messages of one batch. *)
Definition serveMessage (s : Server) (m : message) : M W Step :=
  if negb (String.eqb (Bucket m) (bucket (s_common s))) then
    ret (Abort (bucketError (bucket (s_common s)) (Bucket m)))
  else
    match operationOf (Key m) with
    | None => panic "runtime error: index out of range [1] with length 1"
    | Some op =>
        match handlers s !! op with
        | None =>
            err <- releaseMessage (s_common s) (ReceiptHandle m) ;;
            match err with
            | Some err => ret (Abort err)
            | None => ret Continue
            end
        | Some handle =>
            err <- deleteMessage (s_common s) (ReceiptHandle m) ;;
            match err with
            | Some err => ret (Abort err)
            | None =>
                let baseKey := path.Base (Key m) in
                err <- serveRequest s m op handle baseKey ;;
                match err with
                | Some err => ret (Abort err)
                | None => ret Continue
                end
            end
        end
    end.

Fixpoint serveMessages (s : Server) (ms : list message) : M W Step :=
  match ms with
  | [] => ret Continue
  | m :: ms' =>
      r <- serveMessage s m ;;
      match r with
      | Continue => serveMessages s ms'
      | Abort err => ret (Abort err)
      end
  end.

(** [ListenAndServe]: [fuel] bounds the number of turns of the outer
    [for]. *)
Fixpoint ListenAndServe (s : Server) (fuel : nat) : M W (option error) :=
  match fuel with
  | O => fun st => (Running, st)
  | S fuel' =>
      fun st =>
        if quit_closed st then (Done None, st)
        else if ctx_Done R (world st) then (Done None, st)
        else
          (ms <- Receive (s_common s) ;;
           match ms with
           | Err err => ret (Some err)
           | Ok ms =>
               r <- serveMessages s ms ;;
               match r with
               | Abort err => ret (Some err)
               | Continue =>
                   _ <- perform_ (Sleep (pollIntervall s))
                          (time_Sleep R (pollIntervall s)) ;;
                   ListenAndServe s fuel'
               end
           end) st
  end.

(** [Server.Close]. *)
Definition Server_Close (s : Server) : M W (option error) :=
  r <- closeOnce_Do
         (_ <- close_quit ;;
          perform (RemoveAll (tempDir (s_common s))) is_nil
            (os_RemoveAll R (tempDir (s_common s)))) ;;
  match r with
  | Some err => ret err
  | None => ret None
  end.

End Package.

Arguments Server W : clear implicits.
Arguments Handler W : clear implicits.

(** ** client.go *)

Record Client : Type := {
  timeout : Z;
  c_common : common
}.

(** How the body of the client's loop over a batch ends: it goes on to the
    next message, or the polling function returns.  [output] is the value
    the captured variable [output] has at that moment. *)
Inductive ClientStep : Type :=
| ClientContinue
| ClientReturn (output : Output.t) (err : option error).

(** [fmt.Sprintf("%s/%s/%s_%s", toServer, op, id, filepath.Base(filename))]. *)
Definition requestKey (op id filename : string) : string :=
  toServer +:+ "/" +:+ op +:+ "/" +:+ id +:+ "_" +:+ filepath.Base filename.

(** The key the server uploads its result under:
    [toClient + "/" + op + "/" + baseKey] with
    [op := strings.Split(m.Key, "/")[1]] and [baseKey := path.Base(m.Key)]. *)
Definition responseKey (requestKey : string) : option string :=
  op ← strings.Split requestKey path.slash !! 1%nat;
  Some (toClient +:+ "/" +:+ op +:+ "/" +:+ path.Base requestKey).

Section ClientCall.

Context {W : Type} (R : Runtime W).

(** The body of the loop of [ExecuteFilename] over one batch; [key] is the
    request key, [id] the correlation identifier of the call. *)
Definition receiveResponse (c : Client) (id key : string) (m : message)
  : M W ClientStep :=
  if negb (String.eqb (Bucket m) (bucket (c_common c))) then
    ret (ClientReturn Output.zero
           (Some (bucketError R (bucket (c_common c)) (Bucket m))))
  else if negb (strings.Contains (Key m) id) then
    err <- releaseMessage R (c_common c) (ReceiptHandle m) ;;
    match err with
    | Some err => ret (ClientReturn Output.zero (Some err))
    | None => ret ClientContinue
    end
  else
    err <- deleteMessage R (c_common c) (ReceiptHandle m) ;;
    match err with
    | Some err => ret (ClientReturn Output.zero (Some err))
    | None =>
        let pattern := "*_" +:+ path.Base (Key m) in
        f <- perform (CreateTemp (tempDir (c_common c)) pattern) is_Ok
               (os_CreateTemp R (tempDir (c_common c)) pattern) ;;
        match f with
        | Err err => ret (ClientReturn Output.zero (Some ("tempfile: " +:+ err)))
        | Ok f =>
            let output := Output.mk f ∅ in
            metaData <- getObject R (c_common c) f (Key m) ;;
            match metaData with
            | Err err => ret (ClientReturn output (Some err))
            | Ok metaData =>
                let output := Output.mk f metaData in
                _ <- deleteObject R (c_common c) (Key m) ;;
                _ <- deleteObject R (c_common c) key ;;
                ret (ClientReturn output None)
            end
        end
    end.

Fixpoint receiveResponses (c : Client) (id key : string) (ms : list message)
  : M W ClientStep :=
  match ms with
  | [] => ret ClientContinue
  | m :: ms' =>
      r <- receiveResponse c id key m ;;
      match r with
      | ClientContinue => receiveResponses c id key ms'
      | ClientReturn output err => ret (ClientReturn output err)
      end
  end.

(** The function the call hands to [g.Go]; it returns the error and the
    value left in [output].  [fuel] bounds the turns of its [for]. *)
Fixpoint poll (c : Client) (id key : string) (fuel : nat)
  : M W (Output.t * option error) :=
  match fuel with
  | O => fun st => (Running, st)
  | S fuel' =>
      fun st =>
        if ctx_Done R (world st) then (Done (Output.zero, None), st)
        else
          (ms <- Receive R (c_common c) ;;
           match ms with
           | Err err => ret (Output.zero, Some err)
           | Ok ms =>
               r <- receiveResponses c id key ms ;;
               match r with
               | ClientReturn output err => ret (output, err)
               | ClientContinue => poll c id key fuel'
               end
           end) st
  end.

(** [Client.ExecuteFilename]: what [g.Wait()] returns is the error of the
    single function of the group. *)
Definition ExecuteFilename (c : Client) (op filename : string) (fuel : nat)
  : M W (Output.t * option error) :=
  id <- perform NewUUID (fun _ => true) (uuid_New R) ;;
  let key := requestKey op id filename in
  err <- upload R (c_common c) filename key ∅ ;;
  match err with
  | Some err => ret (Output.zero, Some ("apply: " +:+ err))
  | None =>
      _ <- perform_ (WithTimeout (timeout c))
             (context_WithTimeout R (timeout c)) ;;
      r <- poll c id key fuel ;;
      match r with
      | (_, Some err) => ret (Output.zero, Some ("apply: " +:+ err))
      | (output, None) => ret (output, None)
      end
  end.

(** [Client.Close]. *)
Definition Client_Close (c : Client) : M W (option error) :=
  perform (RemoveAll (tempDir (c_common c))) is_nil
    (os_RemoveAll R (tempDir (c_common c))).

(** The six calls by which a call takes its response: the deletion of the
    message, the scratch file, the download into it, and the two advisory
    deletions of the response and request objects. *)
Definition takeResponse (c : Client) (key : string) (m : message)
    (f : string) (ok1 ok2 : bool)
  : list Event :=
  [ Ev (DeleteMessage (queue (c_common c)) (ReceiptHandle m)) true;
    Ev (CreateTemp (tempDir (c_common c)) ("*_" +:+ path.Base (Key m))) true;
    Ev (GetObject (bucket (c_common c)) (Key m)) true;
    Ev (Copy f) true;
    Ev (DeleteObject (bucket (c_common c)) (Key m)) ok1;
    Ev (DeleteObject (bucket (c_common c)) key) ok2 ].

(** The state in which [ExecuteFilename] starts its upload, and the one in
    which the polling function starts when the upload left [st2]. *)
Definition afterUUID (st : State W) : State W :=
  St (snd (uuid_New R (world st))) (trace st ++ [Ev NewUUID true])
     (quit_closed st) (closeOnce_done st).

Definition afterWithTimeout (c : Client) (st2 : State W) : State W :=
  St (context_WithTimeout R (timeout c) (world st2))
     (trace st2 ++ [Ev (WithTimeout (timeout c)) true])
     (quit_closed st2) (closeOnce_done st2).

End ClientCall.

(** ** Options and constructors *)

Module ClientOptions.

(** [Infof] is left out: it only selects where log lines go. *)
Record t : Type := mk {
  Queue : string;
  Timeout : Z;
  AWS : AWSConfig.t
}.

(** [func (opts *ClientOptions) init() error]: the options after the call
    and the error. *)
Definition init (opts : t) : t * option error :=
  let opts :=
    if String.eqb (AWSConfig.Region (AWS opts)) "" then
      mk (Queue opts) (Timeout opts)
         (AWSConfig.mk defaultRegion (AWSConfig.Bucket (AWS opts))
            (AWSConfig.AccessKeyID (AWS opts))
            (AWSConfig.SecretAccessKey (AWS opts)))
    else opts in
  if String.eqb (AWSConfig.AccessKeyID (AWS opts)) "" then
    (opts, Some "access key id is required")
  else if String.eqb (AWSConfig.SecretAccessKey (AWS opts)) "" then
    (opts, Some "secret access key is required")
  else if String.eqb (Queue opts) "" then
    (opts, Some "queue is required")
  else (opts, None).

End ClientOptions.

Module ServerOptions.

Record t (W : Type) : Type := mk {
  Handlers : gmap string (Handler W);
  Queue : string;
  PollInterval : Z;
  AWS : AWSConfig.t
}.
Arguments mk {W} _ _ _ _.
Arguments Handlers {W} _.
Arguments Queue {W} _.
Arguments PollInterval {W} _.
Arguments AWS {W} _.

Definition init {W} (opts : t W) : t W * option error :=
  let opts :=
    if String.eqb (AWSConfig.Region (AWS opts)) "" then
      mk (Handlers opts) (Queue opts) (PollInterval opts)
         (AWSConfig.mk defaultRegion (AWSConfig.Bucket (AWS opts))
            (AWSConfig.AccessKeyID (AWS opts))
            (AWSConfig.SecretAccessKey (AWS opts)))
    else opts in
  if String.eqb (AWSConfig.AccessKeyID (AWS opts)) "" then
    (opts, Some "access key id is required")
  else if String.eqb (AWSConfig.SecretAccessKey (AWS opts)) "" then
    (opts, Some "secret access key is required")
  else if String.eqb (Queue opts) "" then
    (opts, Some "queue is required")
  else (opts, None).

End ServerOptions.

Section Constructors.

Context {W : Type} (R : Runtime W).

(** [NewClient] returns a client or an error. *)
Definition NewClient (opts : ClientOptions.t) : M W (Result Client) :=
  match ClientOptions.init opts with
  | (_, Some err) => ret (Err err)
  | (opts, None) =>
      let timeout :=
        if Z.eqb (ClientOptions.Timeout opts) 0 then (5 * Minute)%Z
        else ClientOptions.Timeout opts in
      tempDir <- perform (MkdirTemp "" "s3rpc_client") is_Ok
                   (os_MkdirTemp R "" "s3rpc_client") ;;
      match tempDir with
      | Err err => ret (Err err)
      | Ok tempDir =>
          ret (Ok {| timeout := timeout;
                     c_common :=
                       Common tempDir
                         (AWSConfig.Bucket (ClientOptions.AWS opts))
                         (ClientOptions.Queue opts) |})
      end
  end.

(** [NewServer] returns a server or an error; the new server's [quit] channel is
    open and its [closeOnce] unused. *)
Definition NewServer (opts : ServerOptions.t W) : M W (Result (Server W)) :=
  match ServerOptions.init opts with
  | (_, Some err) => ret (Err err)
  | (opts, None) =>
      let pollInterval :=
        if Z.eqb (ServerOptions.PollInterval opts) 0 then (10 * Second)%Z
        else ServerOptions.PollInterval opts in
      tempDir <- perform (MkdirTemp "" "s3rpc_server") is_Ok
                   (os_MkdirTemp R "" "s3rpc_server") ;;
      match tempDir with
      | Err err => ret (Err err)
      | Ok tempDir =>
          ret (Ok {| handlers := ServerOptions.Handlers opts;
                     pollIntervall := pollInterval;
                     s_common :=
                       Common tempDir
                         (AWSConfig.Bucket (ServerOptions.AWS opts))
                         (ServerOptions.Queue opts) |})
      end
  end.

End Constructors.

(** ** A simulated world

    A small executable world to run the package in: a clock, the deadline of
    the context, the batches the queue will hand out, a counter for temporary
    names, and the error (if any) that removing a directory gives. *)
Module Sim.

Local Open Scope Z_scope.

Record World : Type := mkWorld {
  now : Z;
  deadline : option Z;
  inbox : list (list sqsMessage);
  temps : nat;
  removeAllError : option error
}.

(** Every call takes a millisecond; starting the polling function takes a
    microsecond; a receive on an empty queue waits twenty seconds. *)
Definition latency : Z := 1000000.
Definition spawn : Z := 1000.
Definition longPoll : Z := 20 * Second.

Definition tick (d : Z) (w : World) : World :=
  mkWorld (now w + d) (deadline w) (inbox w) (temps w) (removeAllError w).

Definition Done_ (w : World) : bool :=
  match deadline w with
  | Some d => (d <=? now w)
  | None => false
  end.

Definition WithTimeout_ (d : Z) (w : World) : World :=
  mkWorld (now w + spawn) (Some (now w + d)) (inbox w) (temps w)
          (removeAllError w).

Definition quote (s : string) : string :=
  String (ascii_of_nat 34%nat) (s +:+ String (ascii_of_nat 34%nat) EmptyString).

Definition theUUID : string := "123e4567-e89b-42d3-a456-426614174000".

(** A receive is cut short with an error when the deadline passes while it
    waits. *)
Definition ReceiveMessage_ (w : World) : Result (list sqsMessage) * World :=
  match inbox w with
  | batch :: rest =>
      (Ok batch,
       mkWorld (now w + latency) (deadline w) rest (temps w)
               (removeAllError w))
  | [] =>
      match deadline w with
      | Some d =>
          if (d <=? now w + longPoll) then
            (Err "context deadline exceeded",
             mkWorld (Z.max d (now w)) (deadline w) [] (temps w)
                     (removeAllError w))
          else (Ok [], tick longPoll w)
      | None => (Ok [], tick longPoll w)
      end
  end.

Definition CreateTemp_ (dir pattern : string) (w : World)
  : Result string * World :=
  (Ok (dir +:+ "/" +:+ pretty (temps w) +:+ strings.drop 1%nat pattern),
   mkWorld (now w + latency) (deadline w) (inbox w) (S (temps w))
           (removeAllError w)).

Definition MkdirTemp_ (dir pattern : string) (w : World)
  : Result string * World :=
  (Ok ("/tmp/" +:+ pattern +:+ pretty (temps w)),
   mkWorld (now w + latency) (deadline w) (inbox w) (S (temps w))
           (removeAllError w)).

Definition succeed (w : World) : option error * World :=
  (None, tick latency w).

Definition R : Runtime World := {|
  ctx_Done := Done_;
  context_WithTimeout := WithTimeout_;
  uuid_New := fun w => (theUUID, w);
  strconv_Quote := quote;
  sqs_ReceiveMessage := fun _ _ _ _ => ReceiveMessage_;
  sqs_DeleteMessage := fun _ _ => succeed;
  sqs_ChangeMessageVisibility := fun _ _ _ => succeed;
  s3_GetObject := fun _ key w =>
    (Ok (GetObjectOutput ("content of " +:+ key) {[ "foo" := "bar" ]}),
     tick latency w);
  s3_DeleteObject := fun _ _ => succeed;
  s3_Upload := fun _ _ _ _ => succeed;
  io_Copy := fun _ _ => succeed;
  os_Open := fun _ => succeed;
  os_CreateTemp := CreateTemp_;
  os_MkdirTemp := MkdirTemp_;
  os_Remove := fun _ => succeed;
  os_RemoveAll := fun _ w => (removeAllError w, tick latency w);
  time_Sleep := tick
|}.

(** A handler in the manner of the package's test: a new file next to the
    input, and one metadata entry. *)
Definition dosomething : Handler World :=
  fun input w =>
    (Ok (Output.mk (Input.Filename input +:+ "-changed") {[ "foo" := "bar" ]}),
     tick latency w).

Definition theCommon : common := Common "/tmp/s3rpc" "s3fptest" "queue-url".

Definition server : Server World := {|
  handlers := {[ "dosomething" := dosomething ]};
  pollIntervall := 10 * Second;
  s_common := theCommon
|}.

Definition client (timeout : Z) : Client := {|
  timeout := timeout;
  c_common := theCommon
|}.

(** A notification for one object. *)
Definition notify (bucket key handle : string) : sqsMessage :=
  SqsMessage (Ok (MessageBody [S3Object bucket key])) handle.

Definition start (batches : list (list sqsMessage)) : State World :=
  St (mkWorld 0 None batches 0%nat None) [] false false.

Definition startFailingRemove : State World :=
  St (mkWorld 0 None [] 0%nat (Some "unlinkat /tmp/s3rpc: permission denied"))
     [] false false.

Definition clientOptions (bucket : string) : ClientOptions.t :=
  ClientOptions.mk "queue-url" 0 (AWSConfig.mk "" bucket "AKIA" "secret").

Definition serverOptions (bucket : string) : ServerOptions.t World :=
  ServerOptions.mk {[ "dosomething" := dosomething ]} "queue-url" 0
    (AWSConfig.mk "" bucket "AKIA" "secret").

(** The inputs the examples below run on. *)
Definition theClient : Client := client (5 * Minute).

Definition theKey : string := requestKey "dosomething" theUUID "/tmp/go.mod".

Definition requestMsg : message := Message "s3fptest" theKey "h1".

Definition unknownOpMsg : message :=
  Message "s3fptest" "to_server/resize/77_a.png" "h2".

Definition otherBucketMsg : message :=
  Message "elsewhere" "to_server/dosomething/77_go.mod" "h3".

Definition noSlashMsg : message := Message "s3fptest" "nokey" "h4".

Definition foreignMsg : message :=
  Message "s3fptest" "to_client/dosomething/zz_go.mod" "h5".

Definition responseMsg : message :=
  Message "s3fptest" ("to_client/dosomething/" +:+ theUUID +:+ "_go.mod") "h6".

(** The identifier is in the operation segment, not in the base name. *)
Definition strayMsg : message :=
  Message "s3fptest" ("to_client/" +:+ theUUID +:+ "/report.txt") "h7".

Definition notifyOf (m : message) : sqsMessage :=
  notify (Bucket m) (Key m) (ReceiptHandle m).

End Sim.

(** The calls of a log, without their outcomes. *)
Definition calls (t : list Event) : list Call := map call t.

(** [s] has no byte ['/']. *)
Definition noSlash (s : string) : Prop := strings.CountByte s path.slash = 0.

(** Is the call an operation on a queue message (delete or change of
    lease)? *)
Definition isQueueOp (c : Call) : bool :=
  match c with
  | DeleteMessage _ _ | ChangeMessageVisibility _ _ _ => true
  | _ => false
  end.

(** Is the call the download of an object or the run of a handler? *)
Definition isWork (c : Call) : bool :=
  match c with
  | GetObject _ _ | Handle _ _ => true
  | _ => false
  end.

(** ** The calls each side may make

    [serverEvent s e]: [e] is a call that serving may make, with the
    arguments the server's configuration fixes.  A handler runs only for an
    operation it is registered under; an upload goes to the configured bucket
    under [to_client/]; a lease is only ever set to zero. *)
Definition serverEvent {W} (s : Server W) (e : Event) : bool :=
  match call e with
  | ReceiveMessage q n v w =>
      String.eqb q (queue (s_common s)) && Z.eqb n 5
      && Z.eqb v visibilitySeconds && Z.eqb w 20
  | DeleteMessage q _ => String.eqb q (queue (s_common s))
  | ChangeMessageVisibility q _ v =>
      String.eqb q (queue (s_common s)) && Z.eqb v 0
  | GetObject b _ => String.eqb b (bucket (s_common s))
  | Upload b k _ _ =>
      String.eqb b (bucket (s_common s))
      && strings.HasPrefix k (toClient +:+ "/")
  | CreateTemp d p =>
      String.eqb d (tempDir (s_common s)) && strings.HasPrefix p "*_"
  | Handle op _ =>
      match handlers s !! op with Some _ => true | None => false end
  | Sleep d => Z.eqb d (pollIntervall s)
  | Copy _ | Open _ | Remove _ => true
  | DeleteObject _ _ | MkdirTemp _ _ | RemoveAll _ | WithTimeout _
  | NewUUID | CloseQuit => false
  end.

(** [clientEvent c filename e]: [e] is a call that [ExecuteFilename] on
    [filename] may make.  The only file opened is the input; an upload goes
    to the configured bucket under [to_server/]. *)
Definition clientEvent (c : Client) (filename : string) (e : Event) : bool :=
  match call e with
  | NewUUID => true
  | Open name => String.eqb name filename
  | Upload b k f md =>
      String.eqb b (bucket (c_common c))
      && strings.HasPrefix k (toServer +:+ "/")
      && String.eqb f filename
      && bool_decide (md = ∅)
  | WithTimeout d => Z.eqb d (timeout c)
  | ReceiveMessage q n v w =>
      String.eqb q (queue (c_common c)) && Z.eqb n 5
      && Z.eqb v visibilitySeconds && Z.eqb w 20
  | DeleteMessage q _ => String.eqb q (queue (c_common c))
  | ChangeMessageVisibility q _ v =>
      String.eqb q (queue (c_common c)) && Z.eqb v 0
  | CreateTemp d p =>
      String.eqb d (tempDir (c_common c)) && strings.HasPrefix p "*_"
  | GetObject b _ | DeleteObject b _ => String.eqb b (bucket (c_common c))
  | Copy _ => true
  | Handle _ _ | Sleep _ | Remove _ | RemoveAll _ | MkdirTemp _ _
  | CloseQuit => false
  end.

Definition isDeleteObject (c : Call) : bool :=
  match c with DeleteObject _ _ => true | _ => false end.



(** The message [common.Receive] makes of one SQS message, when it makes
    one: the body decodes and has exactly one record. *)
Definition messageOf (raw : sqsMessage) : option message :=
  match Body raw with
  | Ok (MessageBody [record]) =>
      Some (Message (Bucket_Name record) (Object_Key record)
              (sqs_ReceiptHandle raw))
  | _ => None
  end.

(** The shape of the calls [evs] of a client function that returned [r]
    (or did not return a value, [None]): none of them deletes an object, or
    the function returned a response without error and its last calls are the
    six of [takeResponse]. *)
Definition deletesOnlyAtEnd (c : Client) (key : string)
    (r : option (Output.t * option error)) (evs : list Event) : Prop :=
  Forall (fun e => isDeleteObject (call e) = false) evs
  \/ exists out t m ok1 ok2,
      r = Some (out, None)
      /\ evs = t ++ takeResponse c key m (Output.Filename out) ok1 ok2
      /\ Forall (fun e => isDeleteObject (call e) = false) t.



(** Three notifications [Receive] does not turn into a message: one without
    record, one with two records, one whose body is not JSON. *)
Definition emptyNote : sqsMessage := SqsMessage (Ok (MessageBody [])) "h8".

Definition doubleNote : sqsMessage :=
  SqsMessage
    (Ok (MessageBody [S3Object "s3fptest" "to_server/dosomething/1_a.txt";
                      S3Object "s3fptest" "to_server/dosomething/2_b.txt"]))
    "h9".

Definition garbledNote : sqsMessage :=
  SqsMessage (Err "unexpected end of JSON input") "h10".

(** The simulated world without the input file: [os.Open] fails. *)
Definition noFile : Runtime Sim.World := {|
  ctx_Done := ctx_Done Sim.R;
  context_WithTimeout := context_WithTimeout Sim.R;
  uuid_New := uuid_New Sim.R;
  strconv_Quote := strconv_Quote Sim.R;
  sqs_ReceiveMessage := sqs_ReceiveMessage Sim.R;
  sqs_DeleteMessage := sqs_DeleteMessage Sim.R;
  sqs_ChangeMessageVisibility := sqs_ChangeMessageVisibility Sim.R;
  s3_GetObject := s3_GetObject Sim.R;
  s3_DeleteObject := s3_DeleteObject Sim.R;
  s3_Upload := s3_Upload Sim.R;
  io_Copy := io_Copy Sim.R;
  os_Open := fun name w =>
    (Some ("open " +:+ name +:+ ": no such file or directory"),
     Sim.tick Sim.latency w);
  os_CreateTemp := os_CreateTemp Sim.R;
  os_MkdirTemp := os_MkdirTemp Sim.R;
  os_Remove := os_Remove Sim.R;
  os_RemoveAll := os_RemoveAll Sim.R;
  time_Sleep := time_Sleep Sim.R
|}.

(** The eight calls by which the server answers a request: the deletion
    of the message, the scratch file [f], the download into it (metadata
    [md]), the handler, the opening and the upload of the handler's output
    [out] under [to_client/op/] and the base name of the request key, the
    removal of the scratch file. *)
Definition answerRequest (cm : common) (m : message) (op f : string)
    (md : gmap string string) (out : Output.t) (okr : bool) : list Event :=
  [ Ev (DeleteMessage (queue cm) (ReceiptHandle m)) true;
    Ev (CreateTemp (tempDir cm) ("*_" +:+ path.Base (Key m))) true;
    Ev (GetObject (bucket cm) (Key m)) true;
    Ev (Copy f) true;
    Ev (Handle op (Input.mk f md)) true;
    Ev (Open (Output.Filename out)) true;
    Ev (Upload (bucket cm)
          (toClient +:+ "/" +:+ op +:+ "/" +:+ path.Base (Key m))
          (Output.Filename out) (Output.Metadata out)) true;
    Ev (Remove f) okr ].


(** ** provisioner.go *)

Module provisioner.

(** What [PrintProvisionResults] reads of [s3rpccreate.CreateResults]: the
    URL of each queue and the two strings of each access key.  The code
    reads them through pointers, which are taken to be set. *)
Record AccessKey : Type := mkAccessKey {
  AccessKeyId : string;
  SecretAccessKey : string
}.

Record CreateResults : Type := mkCreateResults {
  Queues : list string;
  AccessKeys : list AccessKey
}.

(** The [name] of the two loops: ["SERVER"] at index one, ["CLIENT"]
    elsewhere. *)
Definition name (i : nat) : string :=
  if Nat.eqb i 1 then "SERVER" else "CLIENT".

(** [PrintProvisionResults]: the lines written to standard output, each
    without its final newline. *)
Definition PrintProvisionResults (outputs : CreateResults) : list string :=
  imap (fun i q => "S3RPC_" +:+ name i +:+ "_QUEUE=" +:+ q) (Queues outputs)
  ++ concat
       (imap (fun i k =>
                [ "S3RPC_" +:+ name i +:+ "_ACCESS_KEY_ID=" +:+ AccessKeyId k;
                  "S3RPC_" +:+ name i +:+ "_SECRET_ACCESS_KEY="
                    +:+ SecretAccessKey k ])
             (AccessKeys outputs)).

(** A client and a server entry of each kind, and a third queue. *)
Definition example : CreateResults :=
  mkCreateResults
    ["https://sqs/client"; "https://sqs/server"; "https://sqs/third"]
    [mkAccessKey "AKIACLIENT" "s1"; mkAccessKey "AKIASERVER" "s2"].

End provisioner.

(** * Properties *)

Example Split_ex1 :
  strings.Split "to_server/resize/id_a.png" path.slash
  = ["to_server"; "resize"; "id_a.png"].
Proof. reflexivity. Qed.

Example Split_ex2 :
  strings.Split "" path.slash = [""]
  /\ strings.Split "a//b/" path.slash = ["a"; ""; "b"; ""].
Proof. split; reflexivity. Qed.

Example Base_ex1 : path.Base "to_server/resize/id_a.png" = "id_a.png".
Proof. reflexivity. Qed.

Example Base_ex2 :
  path.Base "a/b///" = "b" /\ path.Base "///" = "/"
  /\ path.Base "" = "." /\ path.Base "abc" = "abc".
Proof. repeat split; reflexivity. Qed.

Example Contains_ex :
  strings.Contains "to_client/op/77_x" "77" = true
  /\ strings.Contains "abc" "" = true
  /\ strings.Contains "abc" "bd" = false.
Proof. repeat split; reflexivity. Qed.

(** One turn of the server on a batch of two: a request it has a handler
    for, and one for an operation it does not know. *)
Example server_round :
  calls (trace (snd (ListenAndServe Sim.R Sim.server 1
                       (Sim.start [[Sim.notifyOf Sim.requestMsg;
                                    Sim.notifyOf Sim.unknownOpMsg]]))))
  = [ReceiveMessage "queue-url" 5 7 20;
     DeleteMessage "queue-url" "h1";
     CreateTemp "/tmp/s3rpc" "*_123e4567-e89b-42d3-a456-426614174000_go.mod";
     GetObject "s3fptest" Sim.theKey;
     Copy "/tmp/s3rpc/0_123e4567-e89b-42d3-a456-426614174000_go.mod";
     Handle "dosomething"
       (Input.mk "/tmp/s3rpc/0_123e4567-e89b-42d3-a456-426614174000_go.mod"
          {[ "foo" := "bar" ]});
     Open "/tmp/s3rpc/0_123e4567-e89b-42d3-a456-426614174000_go.mod-changed";
     Upload "s3fptest"
       "to_client/dosomething/123e4567-e89b-42d3-a456-426614174000_go.mod"
       "/tmp/s3rpc/0_123e4567-e89b-42d3-a456-426614174000_go.mod-changed"
       {[ "foo" := "bar" ]};
     Remove "/tmp/s3rpc/0_123e4567-e89b-42d3-a456-426614174000_go.mod";
     ChangeMessageVisibility "queue-url" "h2" 0;
     Sleep (10 * Second)].
Proof. vm_compute. reflexivity. Qed.

(** ** Facts about the string functions *)

Section StringFacts.

Implicit Types (s a b p sub : string) (c : ascii).

Lemma Split_not_nil s c : strings.Split s c <> [].
Proof.
  destruct s as [|d s]; simpl; [discriminate|].
  destruct (Ascii.eqb d c); [discriminate|].
  destruct (strings.Split s c); discriminate.
Qed.

Lemma Split_length s c :
  length (strings.Split s c) = S (strings.CountByte s c).
Proof.
  induction s as [|d s IH]; simpl; [reflexivity|].
  destruct (Ascii.eqb d c); simpl.
  - now rewrite IH.
  - destruct (strings.Split s c) eqn:E; simpl in *; [discriminate|].
    exact IH.
Qed.

Lemma CountByte_app a b c :
  strings.CountByte (a +:+ b) c
  = strings.CountByte a c + strings.CountByte b c.
Proof.
  induction a as [|d a IH]; simpl; [reflexivity|].
  rewrite IH. lia.
Qed.

Lemma CountByte_cons_0 d s c :
  strings.CountByte (String d s) c = 0 ->
  Ascii.eqb d c = false /\ strings.CountByte s c = 0.
Proof.
  simpl. destruct (Ascii.eqb d c); [discriminate|]. now split.
Qed.

(** A string without separator is its own single segment. *)
Lemma Split_noSep s c : strings.CountByte s c = 0 -> strings.Split s c = [s].
Proof.
  induction s as [|d s IH]; [reflexivity|].
  intros H. apply CountByte_cons_0 in H as [Hd Hs].
  simpl. rewrite Hd, (IH Hs). reflexivity.
Qed.

(** Splitting peels off a first segment that has no separator. *)
Lemma Split_app a b c :
  strings.CountByte a c = 0 ->
  strings.Split (a +:+ String c b) c = a :: strings.Split b c.
Proof.
  induction a as [|d a IH]; intros H.
  - simpl. now rewrite Ascii.eqb_refl.
  - apply CountByte_cons_0 in H as [Hd Ha].
    simpl. rewrite Hd, (IH Ha). reflexivity.
Qed.

(** The index [1] of the split key exists exactly when the key has a
    slash. *)
Lemma operationOf_None_iff key :
  operationOf key = None <-> noSlash key.
Proof.
  unfold operationOf, noSlash.
  rewrite lookup_ge_None, Split_length. lia.
Qed.

Lemma LastIndexByte_None s c :
  strings.LastIndexByte s c = None -> strings.CountByte s c = 0.
Proof.
  induction s as [|d s IH]; simpl; [reflexivity|].
  destruct (strings.LastIndexByte s c); [discriminate|].
  destruct (Ascii.eqb d c); [discriminate|]. intros _. now apply IH.
Qed.

Lemma LastIndexByte_noSep s c :
  strings.CountByte s c = 0 -> strings.LastIndexByte s c = None.
Proof.
  induction s as [|d s IH]; [reflexivity|].
  intros H. apply CountByte_cons_0 in H as [Hd Hs].
  simpl. now rewrite (IH Hs), Hd.
Qed.

(** What follows the last separator has no separator. *)
Lemma LastIndexByte_Some_drop s c i :
  strings.LastIndexByte s c = Some i ->
  strings.CountByte (strings.drop (S i) s) c = 0.
Proof.
  revert i. induction s as [|d s IH]; intros i; simpl; [discriminate|].
  destruct (strings.LastIndexByte s c) as [j|] eqn:E.
  - intros [= <-]. now apply IH.
  - destruct (Ascii.eqb d c); [|discriminate].
    intros [= <-]. simpl. now apply LastIndexByte_None.
Qed.

Lemma LastIndexByte_app a b c :
  strings.CountByte b c = 0 ->
  strings.LastIndexByte (a +:+ String c b) c = Some (String.length a).
Proof.
  intros Hb. induction a as [|d a IH]; simpl.
  - now rewrite (LastIndexByte_noSep _ _ Hb), Ascii.eqb_refl.
  - now rewrite IH.
Qed.

Lemma drop_app a b c :
  strings.drop (S (String.length a)) (a +:+ String c b) = b.
Proof. induction a as [|d a IH]; simpl; [reflexivity|exact IH]. Qed.

Lemma stripTrailingSlashes_noSlash s :
  noSlash s -> path.stripTrailingSlashes s = s.
Proof.
  unfold noSlash. induction s as [|d s IH]; [reflexivity|].
  intros H. apply CountByte_cons_0 in H as [Hd Hs].
  cbn [path.stripTrailingSlashes]. rewrite (IH Hs), Hd. now destruct s.
Qed.

Lemma stripTrailingSlashes_app a b :
  path.stripTrailingSlashes b <> "" ->
  path.stripTrailingSlashes (a +:+ b) = a +:+ path.stripTrailingSlashes b.
Proof.
  intros Hb. induction a as [|d a IH]; [reflexivity|].
  change (String d a +:+ b) with (String d (a +:+ b)).
  change (String d a +:+ path.stripTrailingSlashes b)
    with (String d (a +:+ path.stripTrailingSlashes b)).
  cbn [path.stripTrailingSlashes]. rewrite IH.
  destruct (a +:+ path.stripTrailingSlashes b) eqn:E; [|reflexivity].
  destruct a; simpl in E; [contradiction|discriminate].
Qed.

Lemma stripTrailingSlashes_slash s :
  path.stripTrailingSlashes (s +:+ "/") = path.stripTrailingSlashes s.
Proof.
  induction s as [|d s IH]; simpl; [reflexivity|]. now rewrite IH.
Qed.

Lemma append_cons d a b : String d a +:+ b = String d (a +:+ b).
Proof. reflexivity. Qed.

Lemma append_assoc a b p : (a +:+ b) +:+ p = a +:+ (b +:+ p).
Proof.
  induction a as [|d a IH]; [reflexivity|].
  rewrite !append_cons. now f_equal.
Qed.

Lemma app_not_empty a b : b <> "" -> a +:+ b <> "".
Proof. intros Hb. destruct a; simpl; [exact Hb|discriminate]. Qed.

Lemma eqb_empty_false s : s <> "" -> String.eqb s "" = false.
Proof. intros H. now apply String.eqb_neq. Qed.

Lemma stripTrailingSlashes_cons c s :
  path.stripTrailingSlashes s <> "" ->
  path.stripTrailingSlashes (String c s)
  = String c (path.stripTrailingSlashes s).
Proof.
  intros H. cbn [path.stripTrailingSlashes].
  destruct (path.stripTrailingSlashes s); [contradiction|reflexivity].
Qed.

Lemma stripTrailingSlashes_segment a b :
  noSlash b -> b <> "" ->
  path.stripTrailingSlashes (a +:+ String path.slash b)
  = a +:+ String path.slash b.
Proof.
  intros Hb Hne.
  assert (Hs : path.stripTrailingSlashes b = b)
    by now apply stripTrailingSlashes_noSlash.
  assert (Hc : path.stripTrailingSlashes (String path.slash b)
               = String path.slash b).
  { rewrite stripTrailingSlashes_cons; rewrite Hs; [reflexivity|exact Hne]. }
  rewrite stripTrailingSlashes_app; rewrite Hc; [reflexivity|discriminate].
Qed.

(** The base of a path that ends in a segment [b] is [b]. *)
Lemma Base_app a b :
  noSlash b -> b <> "" -> path.Base (a +:+ String path.slash b) = b.
Proof.
  intros Hb Hne. unfold path.Base.
  rewrite eqb_empty_false by (apply app_not_empty; discriminate).
  rewrite stripTrailingSlashes_segment by assumption.
  rewrite LastIndexByte_app by exact Hb.
  rewrite drop_app. now rewrite eqb_empty_false.
Qed.

(** The same when the path has one more slash at its end. *)
Lemma Base_app_slash a b :
  noSlash b -> b <> "" ->
  path.Base (a +:+ String path.slash (b +:+ "/")) = b.
Proof.
  intros Hb Hne. unfold path.Base.
  rewrite eqb_empty_false by (apply app_not_empty; discriminate).
  replace (a +:+ String path.slash (b +:+ "/"))
    with ((a +:+ String path.slash b) +:+ "/").
  2:{ now rewrite append_assoc. }
  rewrite stripTrailingSlashes_slash.
  rewrite stripTrailingSlashes_segment by assumption.
  rewrite LastIndexByte_app by exact Hb.
  rewrite drop_app. now rewrite eqb_empty_false.
Qed.

(** [path.Base] gives ["/"] or a non-empty name without slash. *)
Lemma Base_shape p :
  path.Base p = "/" \/ (noSlash (path.Base p) /\ path.Base p <> "").
Proof.
  unfold path.Base.
  destruct (String.eqb p "") eqn:Ep; [right; now split|].
  set (p1 := path.stripTrailingSlashes p).
  destruct (strings.LastIndexByte p1 path.slash) as [i|] eqn:E.
  - destruct (String.eqb (strings.drop (S i) p1) "") eqn:E2; [now left|].
    right. split.
    + now apply LastIndexByte_Some_drop.
    + now apply String.eqb_neq.
  - destruct (String.eqb p1 "") eqn:E2; [now left|].
    right. split.
    + now apply LastIndexByte_None.
    + now apply String.eqb_neq.
Qed.

(** [strings.Contains] finds exactly the substrings. *)
Lemma HasPrefix_spec s p :
  strings.HasPrefix s p = true <-> exists b, s = p +:+ b.
Proof.
  revert s. induction p as [|c p IH]; intros s.
  - split; [intros _; now exists s|intros _; now destruct s].
  - destruct s as [|d s].
    + split; [discriminate|]. intros [b Hb]. discriminate.
    + cbn [strings.HasPrefix]. destruct (Ascii.eqb_spec c d) as [->|Hne].
      * rewrite IH. split; intros [b Hb]; exists b. 
        -- now rewrite Hb.
        -- now injection Hb.
      * split; [discriminate|]. intros [b Hb]. injection Hb as ? ?. congruence.
Qed.

Lemma Contains_spec s sub :
  strings.Contains s sub = true <-> exists a b, s = a +:+ sub +:+ b.
Proof.
  induction s as [|d s IH]; cbn [strings.Contains].
  - destruct (strings.HasPrefix "" sub) eqn:E.
    + apply HasPrefix_spec in E as [b Hb].
      split; [intros _; now exists "", b|reflexivity].
    + split; [discriminate|]. intros ([|? a] & b & H); [|discriminate].
      assert (strings.HasPrefix "" sub = true)
        by (apply HasPrefix_spec; eauto). congruence.
  - destruct (strings.HasPrefix (String d s) sub) eqn:E.
    + apply HasPrefix_spec in E as [b Hb].
      split; [intros _; now exists "", b|reflexivity].
    + rewrite IH. split.
      * intros (a & b & ->). now exists (String d a), b.
      * intros ([|d' a] & b & H).
        -- assert (strings.HasPrefix (String d s) sub = true)
             by (apply HasPrefix_spec; eauto). congruence.
        -- injection H as -> ->. eauto.
Qed.

End StringFacts.

(** ** Running the package symbolically *)

(** In a hypothesis that describes a run, name the result of the next call
    into the world, or split on a value already named, and reduce. *)
Ltac step_in H :=
  first
    [ match type of H with
      | context [let '(_, _) := ?op in _] =>
          lazymatch op with
          | context [match _ with _ => _ end] => fail
          | _ => idtac
          end;
          let a := fresh "a" in let w := fresh "w" in let E := fresh "E" in
          destruct op as [a w] eqn:E
      end
    | match type of H with
      | context [match ?x with _ => _ end] => is_var x; destruct x
      end ];
  cbn beta iota delta [fst snd world trace quit_closed closeOnce_done] in H.

(** Give the events a run appended to the log. *)
Ltac finish_trace :=
  eexists; split;
  [ cbn [trace]; rewrite <- ?app_assoc; cbn [app]; try reflexivity;
    symmetry; apply app_nil_r
  | ].

Lemma perform_run {W A} (c : Call) (f : A -> bool) (op : W -> A * W) st :
  perform c f op st
  = (Done (fst (op (world st))),
     St (snd (op (world st)))
        (trace st ++ [Ev c (f (fst (op (world st))))])
        (quit_closed st) (closeOnce_done st)).
Proof. unfold perform. now destruct (op (world st)). Qed.

(** ** The key scheme *)

Lemma noSlash_toServer : noSlash toServer.
Proof. reflexivity. Qed.

Lemma noSlash_toClient : noSlash toClient.
Proof. reflexivity. Qed.

Lemma noSlash_app a b : noSlash a -> noSlash b -> noSlash (a +:+ b).
Proof. unfold noSlash. intros Ha Hb. rewrite CountByte_app. lia. Qed.

(** The operation segment of a request key is the operation. *)
Lemma operationOf_requestKey op id filename :
  noSlash op -> operationOf (requestKey op id filename) = Some op.
Proof.
  intros Hop. unfold operationOf, requestKey.
  change ("/" +:+ op +:+ "/" +:+ id +:+ "_" +:+ filepath.Base filename)
    with (String path.slash
            (op +:+ String path.slash (id +:+ "_" +:+ filepath.Base filename))).
  rewrite (Split_app _ _ _ noSlash_toServer).
  rewrite (Split_app _ _ _ Hop). reflexivity.
Qed.

(** The last element of a request key: the identifier, an underscore and the
    base name of the file (nothing after the underscore for a root path). *)
Lemma Base_requestKey op id filename :
  noSlash id ->
  (noSlash (path.Base (requestKey op id filename))
   /\ path.Base (requestKey op id filename) <> "")
  /\ (filepath.Base filename <> "/" ->
      path.Base (requestKey op id filename)
      = id +:+ "_" +:+ filepath.Base filename).
Proof.
  intros Hid.
  assert (Hk : requestKey op id filename
               = (toServer +:+ "/" +:+ op)
                   +:+ String path.slash (id +:+ "_" +:+ filepath.Base filename)).
  { unfold requestKey. now rewrite !append_assoc. }
  assert (Hu : noSlash (id +:+ "_")) by now apply noSlash_app.
  assert (Hne : id +:+ "_" <> "") by now apply app_not_empty.
  destruct (Base_shape filename) as [Hroot|[Hns Hb]]; fold (filepath.Base filename) in *.
  - rewrite Hk, Hroot.
    replace (id +:+ "_" +:+ "/") with ((id +:+ "_") +:+ "/")
      by now rewrite append_assoc.
    rewrite Base_app_slash by assumption.
    split; [now split|]. intros []. reflexivity.
  - assert (Hseg : noSlash (id +:+ "_" +:+ filepath.Base filename)).
    { apply noSlash_app; [exact Hid|]. now apply (noSlash_app "_"). }
    assert (Hseg' : id +:+ "_" +:+ filepath.Base filename <> "").
    { apply app_not_empty. discriminate. }
    rewrite Hk, Base_app by assumption. split; [now split|reflexivity].
Qed.

(** ** The server *)

Section ServerFacts.

Context {W : Type} (R : Runtime W).
Implicit Types (s : Server W) (m : message) (st : State W).

Lemma releaseMessage_run (c : common) h st :
  releaseMessage R c h st
  = (Done (fst (sqs_ChangeMessageVisibility R (queue c) h 0 (world st))),
     St (snd (sqs_ChangeMessageVisibility R (queue c) h 0 (world st)))
        (trace st
         ++ [Ev (ChangeMessageVisibility (queue c) h 0)
                (is_nil (fst (sqs_ChangeMessageVisibility R (queue c) h 0
                                (world st))))])
        (quit_closed st) (closeOnce_done st)).
Proof. apply perform_run. Qed.





End ServerFacts.

Section ServerClaims.

Context {W : Type} (R : Runtime W).
Implicit Types (s : Server W) (m : message) (st : State W).



(** C4.  A message of the configured bucket whose operation segment has no
    handler makes exactly one call: the change of the message's lease to
    zero.  The message is not deleted, and when the release succeeds the
    loop goes on with the rest of the batch. *)
Theorem unregistered_operation_released s m ms st op :
  Bucket m = bucket (s_common s) ->
  operationOf (Key m) = Some op ->
  handlers s !! op = None ->
  let q := queue (s_common s) in
  let h := ReceiptHandle m in
  let err := fst (sqs_ChangeMessageVisibility R q h 0 (world st)) in
  let st' := St (snd (sqs_ChangeMessageVisibility R q h 0 (world st)))
                (trace st ++ [Ev (ChangeMessageVisibility q h 0) (is_nil err)])
                (quit_closed st) (closeOnce_done st) in
  serveMessage R s m st
  = (Done (match err with None => Continue | Some e => Abort e end), st')
  /\ (err = None ->
      serveMessages R s (m :: ms) st = serveMessages R s ms st').
Proof.
  intros Hb Hop Hh q h err st'.
  assert (Hm : serveMessage R s m st
    = (Done (match err with None => Continue | Some e => Abort e end), st')).
  { unfold serveMessage. rewrite Hb, String.eqb_refl. cbn [negb].
    rewrite Hop, Hh. unfold bind. rewrite releaseMessage_run.
    fold q h err st'. now destruct err. }
  split; [exact Hm|].
  intros He. cbn [serveMessages]. unfold bind at 1. rewrite Hm, He.
  reflexivity.
Qed.

(** The order of the calls the server makes for one message: a download or
    a run of a handler only after the successful deletion of the message. *)
Lemma serveMessage_delete_first s m st r st' :
  serveMessage R s m st = (r, st') ->
  exists evs,
    trace st' = trace st ++ evs /\
    forall i e,
      evs !! i = Some e -> isWork (call e) = true ->
      evs !! 0%nat
      = Some (Ev (DeleteMessage (queue (s_common s)) (ReceiptHandle m)) true)
      /\ forall j e', (0 < j)%nat -> evs !! j = Some e' ->
                      isQueueOp (call e') = false.
Proof.
  intros H.
  unfold serveMessage, serveRequest, getObject, upload, deleteMessage,
    releaseMessage, bind, ret, panic, perform in H.
  destruct (negb (Bucket m =? bucket (s_common s))%string).
  { injection H as <- <-. exists []. split; [now rewrite app_nil_r|].
    intros i e Hi. now rewrite lookup_nil in Hi. }
  destruct (operationOf (Key m)) as [op|].
  2:{ injection H as <- <-. exists []. split; [now rewrite app_nil_r|].
      intros i e Hi. now rewrite lookup_nil in Hi. }
  destruct (handlers s !! op) as [handle|].
  2:{ repeat step_in H; injection H as <- <-; finish_trace;
      intros [|[|i]] ev [= <-]; discriminate. }
  repeat step_in H; injection H as <- <-; finish_trace.
  all: intros i ev Hi Hw.
  all: try (destruct i as [|i]; [injection Hi as <-; discriminate|]).
  all: try (now rewrite ?lookup_nil in Hi).
  all: split; [reflexivity|].
  all: intros j ev' Hj Hj'; destruct j as [|j]; [lia|].
  all: cbn in Hj'.
  all: repeat (destruct j as [|j];
               [injection Hj' as <-; reflexivity|cbn in Hj']).
  all: now rewrite ?lookup_nil in Hj'.
Qed.

(** C6.  For a message the server has a handler for, the first thing done
    is the deletion of the message from the queue.  When that deletion fails
    the server returns its error and nothing else is done: no download, no
    handler.  When it succeeds, the request is staged, handled and answered
    (the function literal of the loop) in the state the deletion left, so
    that the download and the handler run on a world in which the message is
    already deleted.  Among the calls made for any message, a download or a
    run of a handler is found only after the successful deletion of that
    message, which is the first call, and no later call deletes or releases
    a message. *)
Theorem delete_before_work s m st :
  (forall op (handle : Handler W),
      Bucket m = bucket (s_common s) ->
      operationOf (Key m) = Some op ->
      handlers s !! op = Some handle ->
      let q := queue (s_common s) in
      let h := ReceiptHandle m in
      let err := fst (sqs_DeleteMessage R q h (world st)) in
      let st1 := St (snd (sqs_DeleteMessage R q h (world st)))
                    (trace st ++ [Ev (DeleteMessage q h) (is_nil err)])
                    (quit_closed st) (closeOnce_done st) in
      (forall e, err = Some e ->
                 serveMessage R s m st = (Done (Abort e), st1))
      /\ (err = None ->
          serveMessage R s m st
          = (match fst (serveRequest R s m op handle (path.Base (Key m)) st1)
             with
             | Done None => Done Continue
             | Done (Some e) => Done (Abort e)
             | Panic msg => Panic msg
             | Running => Running
             end,
             snd (serveRequest R s m op handle (path.Base (Key m)) st1))))
  /\ (forall r st',
        serveMessage R s m st = (r, st') ->
        exists evs,
          trace st' = trace st ++ evs /\
          forall i e,
            evs !! i = Some e -> isWork (call e) = true ->
            evs !! 0%nat
            = Some (Ev (DeleteMessage (queue (s_common s)) (ReceiptHandle m))
                       true)
            /\ forall j e', (0 < j)%nat -> evs !! j = Some e' ->
                            isQueueOp (call e') = false).
Proof.
  split; [|intros r st'; apply serveMessage_delete_first].
  intros op handle Hb Hop Hh q h err st1.
  assert (Hrun : serveMessage R s m st
    = bind (ret err)
        (fun err =>
           match err with
           | Some err => ret (Abort err)
           | None =>
               bind (serveRequest R s m op handle (path.Base (Key m)))
                 (fun err => match err with
                             | Some err => ret (Abort err)
                             | None => ret Continue
                             end)
           end) st1).
  { unfold serveMessage. rewrite Hb, String.eqb_refl, Hop, Hh. cbn [negb].
    unfold deleteMessage. unfold bind at 1. rewrite perform_run.
    reflexivity. }
  rewrite Hrun. unfold bind at 1, ret at 1. split.
  - intros e ->. reflexivity.
  - intros ->. unfold bind, ret.
    destruct (serveRequest R s m op handle (path.Base (Key m)) st1)
      as [[[e|]| |] st2]; reflexivity.
Qed.

(** C10.  For a message of the configured bucket, the operation name
    exists exactly when the key has a slash, and the processing of the
    message panics exactly when it has none: the index [1] of the split key
    is then out of range, and the panic ends the batch. *)
Theorem operation_extraction_partial s m ms st :
  Bucket m = bucket (s_common s) ->
  (operationOf (Key m) = None <-> noSlash (Key m))
  /\ ((exists msg st', serveMessage R s m st = (Panic msg, st'))
      <-> noSlash (Key m))
  /\ (noSlash (Key m) ->
      serveMessages R s (m :: ms) st
      = (Panic "runtime error: index out of range [1] with length 1", st)).
Proof.
  intros Hb.
  assert (Hpanic : noSlash (Key m) ->
    serveMessage R s m st
    = (Panic "runtime error: index out of range [1] with length 1", st)).
  { intros Hn. apply operationOf_None_iff in Hn.
    unfold serveMessage. rewrite Hb, String.eqb_refl, Hn. reflexivity. }
  split; [apply operationOf_None_iff|]. split.
  - split; [|intros Hn; eauto].
    intros (msg & st' & H). apply operationOf_None_iff.
    unfold serveMessage, serveRequest, getObject, upload, deleteMessage,
      releaseMessage, bind, ret, panic, perform in H.
    destruct (negb (Bucket m =? bucket (s_common s))%string);
      [discriminate|].
    destruct (operationOf (Key m)) as [op|]; [exfalso|reflexivity].
    destruct (handlers s !! op) as [handle|].
    all: repeat step_in H; discriminate.
  - intros Hn. cbn [serveMessages]. unfold bind.
    now rewrite (Hpanic Hn).
Qed.

End ServerClaims.

(** ** The client *)

Section ClientFacts.

Context {W : Type} (R : Runtime W).
Implicit Types (c : Client) (m : message) (st : State W).




(** The polling function returns [nil] as soon as it finds the context
    done, at any turn. *)
Lemma poll_ctx_done c id key fuel st :
  ctx_Done R (world st) = true ->
  poll R c id key (S fuel) st = (Done (Output.zero, None), st).
Proof. intros H. cbn [poll]. now rewrite H. Qed.

(** A message is taken only if its key contains the identifier. *)
Lemma receiveResponse_success c id key m st out st' :
  receiveResponse R c id key m st = (Done (ClientReturn out None), st') ->
  strings.Contains (Key m) id = true
  /\ Bucket m = bucket (c_common c)
  /\ exists ok1 ok2,
      trace st' = trace st ++ takeResponse c key m (Output.Filename out) ok1 ok2.
Proof.
  intros H.
  unfold receiveResponse, getObject, deleteObject, deleteMessage,
    releaseMessage, bind, ret, perform in H.
  destruct (String.eqb_spec (Bucket m) (bucket (c_common c))) as [Hb|Hb];
    cbn [negb] in H; [|discriminate].
  destruct (strings.Contains (Key m) id); cbn [negb] in H.
  2:{ repeat step_in H; discriminate. }
  split; [reflexivity|]. split; [exact Hb|].
  repeat step_in H; try discriminate.
  injection H as <- <-. cbn [trace Output.Filename].
  rewrite <- !app_assoc. cbn [app]. unfold takeResponse. eauto.
Qed.

Lemma receiveResponses_success c id key ms st out st' :
  receiveResponses R c id key ms st = (Done (ClientReturn out None), st') ->
  exists m t ok1 ok2,
    m ∈ ms
    /\ strings.Contains (Key m) id = true
    /\ Bucket m = bucket (c_common c)
    /\ trace st' = t ++ takeResponse c key m (Output.Filename out) ok1 ok2.
Proof.
  revert st. induction ms as [|m ms IH]; intros st H; [discriminate|].
  cbn [receiveResponses] in H. unfold bind in H.
  destruct (receiveResponse R c id key m st) as [[[|o e]| |] st1] eqn:E;
    try discriminate.
  - destruct (IH _ H) as (m' & t & ok1 & ok2 & Hin & Hrest).
    exists m', t, ok1, ok2. split; [apply elem_of_cons; now right|exact Hrest].
  - injection H as -> -> ->.
    destruct (receiveResponse_success _ _ _ _ _ _ _ E)
      as (Hc & Hb & ok1 & ok2 & Ht).
    exists m, (trace st), ok1, ok2.
    split; [apply elem_of_cons; now left|]. now repeat split.
Qed.

(** What a successful poll returns, unless it is the zero [Output], was
    taken from a received message whose key contains the identifier. *)
Lemma poll_output_provenance c id key fuel st out st' :
  poll R c id key fuel st = (Done (out, None), st') ->
  out <> Output.zero ->
  exists m ms st0 st1 t ok1 ok2,
    Receive R (c_common c) st0 = (Done (Ok ms), st1)
    /\ m ∈ ms
    /\ strings.Contains (Key m) id = true
    /\ Bucket m = bucket (c_common c)
    /\ trace st' = t ++ takeResponse c key m (Output.Filename out) ok1 ok2.
Proof.
  revert st. induction fuel as [|fuel IH]; intros st H Hz; [discriminate|].
  cbn [poll] in H.
  destruct (ctx_Done R (world st)); [injection H as <- <-; contradiction|].
  unfold bind in H.
  destruct (Receive R (c_common c) st) as [[[ms|e]| |] st1] eqn:Er;
    try discriminate.
  cbn [ret] in H. unfold ret in H.
  destruct (receiveResponses R c id key ms st1) as [[[|o e]| |] st2] eqn:Es;
    try discriminate.
  - now apply IH in H.
  - injection H as -> -> ->.
    destruct (receiveResponses_success _ _ _ _ _ _ _ Es)
      as (m & t & ok1 & ok2 & Hin & Hc & Hb & Ht).
    now exists m, ms, st, st1, t, ok1, ok2.
Qed.

Lemma ExecuteFilename_run c op filename fuel st st2 r st3 :
  let id := fst (uuid_New R (world st)) in
  upload R (c_common c) filename (requestKey op id filename) ∅ (afterUUID R st)
  = (Done None, st2) ->
  poll R c id (requestKey op id filename) fuel (afterWithTimeout R c st2)
  = (Done r, st3) ->
  ExecuteFilename R c op filename fuel st
  = (Done (match r with
           | (_, Some err) => (Output.zero, Some ("apply: " +:+ err))
           | (output, None) => (output, None)
           end), st3).
Proof.
  intros id Hu Hp. unfold ExecuteFilename.
  unfold bind at 1. rewrite perform_run. fold id.
  unfold bind at 1. fold (afterUUID R st). rewrite Hu.
  unfold bind at 1. unfold perform_. rewrite perform_run.
  cbn [fst snd]. fold (afterWithTimeout R c st2).
  unfold bind. rewrite Hp. now destruct r as [o [e|]].
Qed.

(** A batch that makes the polling function return does so at one of its
    messages, after the messages before it were passed. *)
Lemma receiveResponses_split c id key ms st out err st' :
  receiveResponses R c id key ms st = (Done (ClientReturn out err), st') ->
  exists pre m post stm,
    ms = pre ++ m :: post
    /\ receiveResponses R c id key pre st = (Done ClientContinue, stm)
    /\ receiveResponse R c id key m stm = (Done (ClientReturn out err), st').
Proof.
  revert st. induction ms as [|m ms IH]; intros st H; [discriminate|].
  cbn [receiveResponses] in H. unfold bind in H.
  destruct (receiveResponse R c id key m st) as [[[|o e]| |] st1] eqn:E;
    try discriminate.
  - destruct (IH _ H) as (pre & m' & post & stm & -> & Hpre & Hm).
    exists (m :: pre), m', post, stm. split; [reflexivity|].
    split; [|exact Hm].
    cbn [receiveResponses]. unfold bind. now rewrite E.
  - injection H as -> -> ->. exists [], m, ms, st. now repeat split.
Qed.

(** One turn of the polling function on a batch that is passed. *)
Lemma poll_next c id key fuel ms st st1 st2 :
  ctx_Done R (world st) = false ->
  Receive R (c_common c) st = (Done (Ok ms), st1) ->
  receiveResponses R c id key ms st1 = (Done ClientContinue, st2) ->
  poll R c id key (S fuel) st = poll R c id key fuel st2.
Proof.
  intros Hc Hr Hs. cbn [poll]. rewrite Hc.
  unfold bind. rewrite Hr, Hs. reflexivity.
Qed.

End ClientFacts.

Section ClientClaims.

Context {W : Type} (R : Runtime W).
Implicit Types (c : Client) (m : message) (st : State W).

Lemma Receive_extends (cm : common) st r st' :
  Receive R cm st = (r, st') -> exists evs, trace st' = trace st ++ evs.
Proof.
  unfold Receive, bind, ret, perform. intros H.
  repeat step_in H; injection H as <- <-; eexists; reflexivity.
Qed.

Lemma receiveResponse_extends c id key m st r st' :
  receiveResponse R c id key m st = (r, st') ->
  exists evs, trace st' = trace st ++ evs.
Proof.
  unfold receiveResponse, getObject, deleteObject, deleteMessage,
    releaseMessage, bind, ret, perform. intros H.
  destruct (negb (Bucket m =? bucket (c_common c))%string).
  { injection H as <- <-. exists []. now rewrite app_nil_r. }
  destruct (negb (strings.Contains (Key m) id)).
  all: repeat step_in H; injection H as <- <-; cbn [trace];
    rewrite <- ?app_assoc; eexists; reflexivity.
Qed.

Lemma receiveResponses_extends c id key ms st r st' :
  receiveResponses R c id key ms st = (r, st') ->
  exists evs, trace st' = trace st ++ evs.
Proof.
  revert st. induction ms as [|m ms IH]; intros st H.
  - injection H as <- <-. exists []. now rewrite app_nil_r.
  - cbn [receiveResponses] in H. unfold bind in H.
    destruct (receiveResponse R c id key m st) as [r1 st1] eqn:E.
    apply receiveResponse_extends in E as [e1 He1].
    destruct r1 as [[|o e]| |].
    + apply IH in H as [e2 He2]. exists (e1 ++ e2).
      now rewrite He2, He1, app_assoc.
    + injection H as <- <-. eauto.
    + injection H as <- <-. eauto.
    + injection H as <- <-. eauto.
Qed.

Lemma poll_extends c id key fuel st r st' :
  poll R c id key fuel st = (r, st') ->
  exists evs, trace st' = trace st ++ evs.
Proof.
  revert st. induction fuel as [|fuel IH]; intros st H.
  - injection H as <- <-. exists []. now rewrite app_nil_r.
  - cbn [poll] in H. destruct (ctx_Done R (world st)).
    { injection H as <- <-. exists []. now rewrite app_nil_r. }
    unfold bind, ret in H.
    destruct (Receive R (c_common c) st) as [r1 st1] eqn:Er.
    apply Receive_extends in Er as [e1 He1].
    destruct r1 as [[ms|e]| |];
      try (injection H as <- <-; eauto; fail).
    destruct (receiveResponses R c id key ms st1) as [r2 st2] eqn:Es.
    apply receiveResponses_extends in Es as [e2 He2].
    assert (H12 : trace st2 = trace st ++ (e1 ++ e2))
      by now rewrite He2, He1, app_assoc.
    destruct r2 as [[|o e]| |];
      try (injection H as <- <-; eauto; fail).
    apply IH in H as [e3 He3]. exists ((e1 ++ e2) ++ e3).
    now rewrite He3, H12, <- app_assoc.
Qed.

(** A poll that returns a response other than the zero [Output] reaches a
    turn in which it receives a batch, passes the messages before one of
    them, and takes that one. *)
Lemma poll_success_turn c id key fuel st out st' :
  poll R c id key fuel st = (Done (out, None), st') ->
  out <> Output.zero ->
  exists fuel0 st0 st1 pre m post stm evs0,
    poll R c id key fuel st = poll R c id key (S fuel0) st0
    /\ trace st0 = trace st ++ evs0
    /\ ctx_Done R (world st0) = false
    /\ Receive R (c_common c) st0 = (Done (Ok (pre ++ m :: post)), st1)
    /\ receiveResponses R c id key pre st1 = (Done ClientContinue, stm)
    /\ receiveResponse R c id key m stm = (Done (ClientReturn out None), st').
Proof.
  revert st. induction fuel as [|fuel IH]; intros st H Hz; [discriminate|].
  pose proof H as Hrun. cbn [poll] in H.
  destruct (ctx_Done R (world st)) eqn:Hc;
    [injection H as <- <-; contradiction|].
  unfold bind, ret in H.
  destruct (Receive R (c_common c) st) as [[[ms|e]| |] st1] eqn:Er;
    try discriminate.
  destruct (receiveResponses R c id key ms st1) as [[[|o e]| |] st2] eqn:Es;
    try discriminate.
  - destruct (IH _ H Hz)
      as (fuel0 & st0 & st1' & pre & m & post & stm & evs0
          & Hp & Ht & Hd & Hr & Hpre & Hm).
    apply Receive_extends in Er as [e1 He1].
    apply receiveResponses_extends in Es as [e2 He2].
    exists fuel0, st0, st1', pre, m, post, stm, ((e1 ++ e2) ++ evs0).
    split; [now rewrite Hrun, <- Hp, H|].
    split; [now rewrite Ht, He2, He1, <- !app_assoc|].
    now repeat split.
  - injection H as -> -> ->.
    destruct (receiveResponses_split R _ _ _ _ _ _ _ _ Es)
      as (pre & m & post & stm & -> & Hpre & Hm).
    exists fuel, st, st1, pre, m, post, stm, [].
    split; [reflexivity|]. split; [now rewrite app_nil_r|].
    now repeat split.
Qed.

(** C1 (what the code does).  When the upload has succeeded and the
    polling function finds the context done the first time it looks (the
    timeout has run out and no message was received), the call returns the
    zero [Output] and a nil error, not a timeout error. *)
Theorem timeout_at_select_returns_no_error c op filename fuel st st2 :
  let id := fst (uuid_New R (world st)) in
  upload R (c_common c) filename (requestKey op id filename) ∅ (afterUUID R st)
  = (Done None, st2) ->
  ctx_Done R (world (afterWithTimeout R c st2)) = true ->
  ExecuteFilename R c op filename (S fuel) st
  = (Done (Output.zero, None), afterWithTimeout R c st2).
Proof.
  intros id Hu Hd.
  apply (ExecuteFilename_run R c op filename (S fuel) st st2
           (Output.zero, None) _ Hu).
  now apply poll_ctx_done.
Qed.

(** C2 (amended).  A message of the configured bucket whose whole key does
    not contain the identifier of the call makes exactly one call, the
    change of its lease to zero; it is not deleted and nothing is
    downloaded, and when the release succeeds the loop goes on with the
    rest of the batch.  When all the messages of a batch have been passed
    in this way the polling function starts its next turn, in the state the
    batch left: it receives again, without a pause.  An [Output] other than
    the zero value that a call returns was taken in one turn of its own
    polling function, from a message of the batch received in that turn
    whose key contains the identifier of that call, after the messages
    before it in the batch were passed. *)
Theorem foreign_message_released c :
  (forall id key m ms st,
      Bucket m = bucket (c_common c) ->
      strings.Contains (Key m) id = false ->
      let q := queue (c_common c) in
      let h := ReceiptHandle m in
      let err := fst (sqs_ChangeMessageVisibility R q h 0 (world st)) in
      let st' := St (snd (sqs_ChangeMessageVisibility R q h 0 (world st)))
                    (trace st
                     ++ [Ev (ChangeMessageVisibility q h 0) (is_nil err)])
                    (quit_closed st) (closeOnce_done st) in
      receiveResponse R c id key m st
      = (Done (match err with
               | None => ClientContinue
               | Some e => ClientReturn Output.zero (Some e)
               end), st')
      /\ (err = None ->
          receiveResponses R c id key (m :: ms) st
          = receiveResponses R c id key ms st'))
  /\ (forall id key fuel ms st st1 st2,
        ctx_Done R (world st) = false ->
        Receive R (c_common c) st = (Done (Ok ms), st1) ->
        receiveResponses R c id key ms st1 = (Done ClientContinue, st2) ->
        poll R c id key (S fuel) st = poll R c id key fuel st2)
  /\ (forall op filename fuel st out st',
        ExecuteFilename R c op filename fuel st = (Done (out, None), st') ->
        out <> Output.zero ->
        let id := fst (uuid_New R (world st)) in
        let key := requestKey op id filename in
        exists st2 fuel0 st0 st1 pre m post stm evs0 ok1 ok2,
          upload R (c_common c) filename key ∅ (afterUUID R st)
          = (Done None, st2)
          /\ poll R c id key fuel (afterWithTimeout R c st2)
             = poll R c id key (S fuel0) st0
          /\ trace st0 = trace (afterWithTimeout R c st2) ++ evs0
          /\ ctx_Done R (world st0) = false
          /\ Receive R (c_common c) st0 = (Done (Ok (pre ++ m :: post)), st1)
          /\ receiveResponses R c id key pre st1 = (Done ClientContinue, stm)
          /\ receiveResponse R c id key m stm
             = (Done (ClientReturn out None), st')
          /\ strings.Contains (Key m) id = true
          /\ Bucket m = bucket (c_common c)
          /\ trace st'
             = trace stm ++ takeResponse c key m (Output.Filename out) ok1 ok2).
Proof.
  split; [|split].
  - intros id key m ms st Hb Hc q h err st'.
    assert (Hm : receiveResponse R c id key m st
      = (Done (match err with
               | None => ClientContinue
               | Some e => ClientReturn Output.zero (Some e)
               end), st')).
    { unfold receiveResponse. rewrite Hb, String.eqb_refl, Hc. cbn [negb].
      unfold bind. rewrite releaseMessage_run.
      fold q h err st'. now destruct err. }
    split; [exact Hm|].
    intros He. cbn [receiveResponses]. unfold bind at 1. rewrite Hm, He.
    reflexivity.
  - intros id key fuel ms st st1 st2. apply poll_next.
  - intros op filename fuel st out st' H Hz id key.
    unfold ExecuteFilename in H.
    unfold bind at 1 in H. rewrite perform_run in H. fold id key in H.
    unfold bind at 1 in H. fold (afterUUID R st) in H.
    destruct (upload R (c_common c) filename key ∅ (afterUUID R st))
      as [[[e|]| |] st2] eqn:Eu; try discriminate.
    unfold bind at 1 in H. unfold perform_ in H. rewrite perform_run in H.
    cbn [fst snd] in H. fold (afterWithTimeout R c st2) in H.
    unfold bind, ret in H.
    destruct (poll R c id key fuel (afterWithTimeout R c st2))
      as [[[o [e|]]| |] st3] eqn:Ep; try discriminate.
    injection H as -> ->.
    destruct (poll_success_turn c id key fuel _ out st' Ep Hz)
      as (fuel0 & st0 & st1 & pre & m & post & stm & evs0
          & Hp & Ht & Hd & Hr & Hpre & Hm).
    destruct (receiveResponse_success R _ _ _ _ _ _ _ Hm)
      as (Hc & Hb & ok1 & ok2 & Htr).
    exists st2, fuel0, st0, st1, pre, m, post, stm, evs0, ok1, ok2.
    repeat split; assumption || reflexivity.
Qed.


(** C8 (amended).  A call does not look at the shape of the file name: its
    first calls are the draw of the identifier and the opening of the file
    for the upload, and when the file opens the upload follows, under the
    request key.  Only the base name of the file enters the key, so that
    the key has three segments when the operation and the identifier have
    no slash and the file name is not a root path. *)
Theorem filename_base_in_request_key c op filename fuel st :
  let id := fst (uuid_New R (world st)) in
  (exists r st' ok rest,
      ExecuteFilename R c op filename fuel st = (r, st')
      /\ trace st'
         = trace st ++ Ev NewUUID true :: Ev (Open filename) ok :: rest
      /\ (ok = true ->
          exists ok' rest',
            rest = Ev (Upload (bucket (c_common c))
                         (requestKey op id filename) filename ∅) ok'
                   :: rest'))
  /\ (noSlash op -> noSlash id -> filepath.Base filename <> "/" ->
      strings.Split (requestKey op id filename) path.slash
      = [toServer; op; id +:+ "_" +:+ filepath.Base filename]).
Proof.
  intros id. split.
  - destruct (ExecuteFilename R c op filename fuel st) as [r st'] eqn:H.
    exists r, st'.
    unfold ExecuteFilename in H.
    unfold bind at 1 in H. rewrite perform_run in H. fold id in H.
    unfold bind at 1 in H. unfold upload in H.
    unfold bind at 1 in H. rewrite perform_run in H.
    cbn [world trace quit_closed closeOnce_done] in H.
    destruct (os_Open R filename _) as [[e|] w1]; cbn [fst snd] in H.
    { injection H as <- <-. exists false, []. cbn [trace is_nil].
      rewrite <- app_assoc. split; [reflexivity|]. split; [reflexivity|].
      discriminate. }
    unfold bind at 1 in H. rewrite perform_run in H.
    cbn [world trace quit_closed closeOnce_done] in H.
    destruct (s3_Upload R _ _ _ _ w1) as [[e|] w2]; cbn [fst snd] in H.
    { injection H as <- <-. exists true. eexists. cbn [trace is_nil].
      rewrite <- !app_assoc. split; [reflexivity|]. split; [reflexivity|].
      intros _. eauto. }
    unfold ret at 1 in H. unfold bind at 1 in H. unfold perform_ in H.
    rewrite perform_run in H.
    cbn [fst snd world trace quit_closed closeOnce_done is_nil] in H.
    unfold bind at 1 in H.
    match type of H with
    | context [poll R c id ?k fuel ?s] =>
        destruct (poll R c id k fuel s) as [r3 st3] eqn:Ep
    end.
    apply poll_extends in Ep as [evs Hevs]. cbn [trace] in Hevs.
    assert (Ht : trace st3
      = trace st ++ Ev NewUUID true :: Ev (Open filename) true
          :: Ev (Upload (bucket (c_common c)) (requestKey op id filename)
                   filename ∅) true
          :: Ev (WithTimeout (timeout c)) true :: evs).
    { rewrite Hevs, <- !app_assoc. reflexivity. }
    exists true. eexists.
    assert (Hst : st' = st3).
    { destruct r3 as [[o [e|]]| |]; now injection H. }
    rewrite Hst. split; [reflexivity|]. split; [exact Ht|].
    intros _. eauto.
  - intros Hop Hid Hroot.
    destruct (Base_requestKey op id filename Hid) as [[Hns _] Hbase].
    rewrite (Hbase Hroot) in Hns.
    unfold requestKey.
    change ("/" +:+ op +:+ "/" +:+ id +:+ "_" +:+ filepath.Base filename)
      with (String path.slash
              (op +:+ String path.slash
                        (id +:+ "_" +:+ filepath.Base filename))).
    rewrite (Split_app _ _ _ noSlash_toServer), (Split_app _ _ _ Hop).
    now rewrite (Split_noSep _ _ Hns).
Qed.

End ClientClaims.

(** ** Construction and close *)

Section LifecycleClaims.

Context {W : Type} (R : Runtime W).
Implicit Types (st : State W).

(** The three fields the constructors require, and what they return. *)
Lemma constructors_validate
    (opts : ClientOptions.t) (sopts : ServerOptions.t W) st :
  let missing (a : AWSConfig.t) (q : string) :=
    AWSConfig.AccessKeyID a = "" \/ AWSConfig.SecretAccessKey a = ""
    \/ q = "" in
  let configError (err : error) :=
    err = "access key id is required"
    \/ err = "secret access key is required"
    \/ err = "queue is required" in
  ((missing (ClientOptions.AWS opts) (ClientOptions.Queue opts) ->
    exists err, NewClient R opts st = (Done (Err err), st) /\ configError err)
   /\ (forall cl st', NewClient R opts st = (Done (Ok cl), st') ->
       ~ missing (ClientOptions.AWS opts) (ClientOptions.Queue opts))
   /\ (~ missing (ClientOptions.AWS opts) (ClientOptions.Queue opts) ->
       forall dir w',
         os_MkdirTemp R "" "s3rpc_client" (world st) = (Ok dir, w') ->
         exists cl st',
           NewClient R opts st = (Done (Ok cl), st')
           /\ c_common cl
              = Common dir (AWSConfig.Bucket (ClientOptions.AWS opts))
                  (ClientOptions.Queue opts)))
  /\ ((missing (ServerOptions.AWS sopts) (ServerOptions.Queue sopts) ->
       exists err, NewServer R sopts st = (Done (Err err), st)
                   /\ configError err)
      /\ (forall sv st', NewServer R sopts st = (Done (Ok sv), st') ->
          ~ missing (ServerOptions.AWS sopts) (ServerOptions.Queue sopts))
      /\ (~ missing (ServerOptions.AWS sopts) (ServerOptions.Queue sopts) ->
          forall dir w',
            os_MkdirTemp R "" "s3rpc_server" (world st) = (Ok dir, w') ->
            exists sv st',
              NewServer R sopts st = (Done (Ok sv), st')
              /\ s_common sv
                 = Common dir (AWSConfig.Bucket (ServerOptions.AWS sopts))
                     (ServerOptions.Queue sopts))).
Proof.
  intros missing configError. unfold missing, configError.
  destruct opts as [q t [rg b ak sk]], sopts as [hs sq pi [srg sb sak ssk]].
  cbn [ClientOptions.AWS ClientOptions.Queue ServerOptions.AWS
       ServerOptions.Queue AWSConfig.AccessKeyID AWSConfig.SecretAccessKey
       AWSConfig.Bucket].
  split.
  - unfold NewClient, ClientOptions.init.
    cbn [ClientOptions.AWS ClientOptions.Queue ClientOptions.Timeout
         AWSConfig.AccessKeyID AWSConfig.SecretAccessKey AWSConfig.Bucket
         AWSConfig.Region].
    destruct (String.eqb_spec rg "");
      cbn [ClientOptions.AWS ClientOptions.Queue ClientOptions.Timeout
           AWSConfig.AccessKeyID AWSConfig.SecretAccessKey AWSConfig.Bucket
           AWSConfig.Region].
    all: destruct (String.eqb_spec ak "") as [->|Hak];
      [split; [eauto 6|split; [discriminate|intros []; tauto]]|].
    all: destruct (String.eqb_spec sk "") as [->|Hsk];
      [split; [eauto 6|split; [discriminate|intros []; tauto]]|].
    all: destruct (String.eqb_spec q "") as [->|Hq];
      [split; [eauto 7|split; [discriminate|intros []; tauto]]|].
    all: split; [intros [|[|]]; contradiction|].
    all: split; [intros _ _ _; tauto|].
    all: intros _ dir w' Hmk; unfold bind; rewrite perform_run, Hmk;
      cbn [fst snd]; unfold ret; eauto.
  - unfold NewServer, ServerOptions.init.
    cbn [ServerOptions.AWS ServerOptions.Queue ServerOptions.PollInterval
         ServerOptions.Handlers
         AWSConfig.AccessKeyID AWSConfig.SecretAccessKey AWSConfig.Bucket
         AWSConfig.Region].
    destruct (String.eqb_spec srg "");
      cbn [ServerOptions.AWS ServerOptions.Queue ServerOptions.PollInterval
           ServerOptions.Handlers
           AWSConfig.AccessKeyID AWSConfig.SecretAccessKey AWSConfig.Bucket
           AWSConfig.Region].
    all: destruct (String.eqb_spec sak "") as [->|Hak];
      [split; [eauto 6|split; [discriminate|intros []; tauto]]|].
    all: destruct (String.eqb_spec ssk "") as [->|Hsk];
      [split; [eauto 6|split; [discriminate|intros []; tauto]]|].
    all: destruct (String.eqb_spec sq "") as [->|Hq];
      [split; [eauto 7|split; [discriminate|intros []; tauto]]|].
    all: split; [intros [|[|]]; contradiction|].
    all: split; [intros _ _ _; tauto|].
    all: intros _ dir w' Hmk; unfold bind; rewrite perform_run, Hmk;
      cbn [fst snd]; unfold ret; eauto.
Qed.

(** C7 (amended).  [NewClient] and [NewServer] fail, without a call into
    the world, exactly when the access key id, the secret access key or the
    queue is empty, and the error says which.  When the three are present
    the constructor succeeds as soon as the scratch directory can be made:
    neither the bucket nor the region is required.  [init] replaces an empty
    region by the default region, which is not empty, keeps a region that
    is given, and leaves the bucket as it is, empty or not. *)
Theorem construction_requires_credentials_and_queue
    (opts : ClientOptions.t) (sopts : ServerOptions.t W) st :
  let missing (a : AWSConfig.t) (q : string) :=
    AWSConfig.AccessKeyID a = "" \/ AWSConfig.SecretAccessKey a = ""
    \/ q = "" in
  let configError (err : error) :=
    err = "access key id is required"
    \/ err = "secret access key is required"
    \/ err = "queue is required" in
  (((missing (ClientOptions.AWS opts) (ClientOptions.Queue opts) ->
    exists err, NewClient R opts st = (Done (Err err), st) /\ configError err)
   /\ (forall cl st', NewClient R opts st = (Done (Ok cl), st') ->
       ~ missing (ClientOptions.AWS opts) (ClientOptions.Queue opts))
   /\ (~ missing (ClientOptions.AWS opts) (ClientOptions.Queue opts) ->
       forall dir w',
         os_MkdirTemp R "" "s3rpc_client" (world st) = (Ok dir, w') ->
         exists cl st',
           NewClient R opts st = (Done (Ok cl), st')
           /\ c_common cl
              = Common dir (AWSConfig.Bucket (ClientOptions.AWS opts))
                  (ClientOptions.Queue opts)))
  /\ ((missing (ServerOptions.AWS sopts) (ServerOptions.Queue sopts) ->
       exists err, NewServer R sopts st = (Done (Err err), st)
                   /\ configError err)
      /\ (forall sv st', NewServer R sopts st = (Done (Ok sv), st') ->
          ~ missing (ServerOptions.AWS sopts) (ServerOptions.Queue sopts))
      /\ (~ missing (ServerOptions.AWS sopts) (ServerOptions.Queue sopts) ->
          forall dir w',
            os_MkdirTemp R "" "s3rpc_server" (world st) = (Ok dir, w') ->
            exists sv st',
              NewServer R sopts st = (Done (Ok sv), st')
              /\ s_common sv
                 = Common dir (AWSConfig.Bucket (ServerOptions.AWS sopts))
                     (ServerOptions.Queue sopts))))
  /\ (let o := fst (ClientOptions.init opts) in
      AWSConfig.Region (ClientOptions.AWS o)
      = (if String.eqb (AWSConfig.Region (ClientOptions.AWS opts)) ""
         then defaultRegion
         else AWSConfig.Region (ClientOptions.AWS opts))
      /\ AWSConfig.Region (ClientOptions.AWS o) <> ""
      /\ AWSConfig.Bucket (ClientOptions.AWS o)
         = AWSConfig.Bucket (ClientOptions.AWS opts))
  /\ (let o := fst (ServerOptions.init sopts) in
      AWSConfig.Region (ServerOptions.AWS o)
      = (if String.eqb (AWSConfig.Region (ServerOptions.AWS sopts)) ""
         then defaultRegion
         else AWSConfig.Region (ServerOptions.AWS sopts))
      /\ AWSConfig.Region (ServerOptions.AWS o) <> ""
      /\ AWSConfig.Bucket (ServerOptions.AWS o)
         = AWSConfig.Bucket (ServerOptions.AWS sopts)).
Proof.
  intros missing configError.
  split; [exact (constructors_validate opts sopts st)|].
  destruct opts as [q t [rg b ak sk]], sopts as [hs sq pi [srg sb sak ssk]].
  unfold ClientOptions.init, ServerOptions.init.
  cbn [ClientOptions.AWS ClientOptions.Queue ClientOptions.Timeout
       ServerOptions.AWS ServerOptions.Queue ServerOptions.PollInterval
       ServerOptions.Handlers AWSConfig.AccessKeyID
       AWSConfig.SecretAccessKey AWSConfig.Bucket AWSConfig.Region].
  split.
  - destruct (String.eqb_spec rg "") as [->|Hr];
      cbn [ClientOptions.AWS AWSConfig.AccessKeyID
           AWSConfig.SecretAccessKey AWSConfig.Region ClientOptions.Queue];
      repeat match goal with
             | |- context [if ?b then (_, _) else _] => destruct b
             end;
      cbn [fst ClientOptions.AWS AWSConfig.Region AWSConfig.Bucket];
      repeat split; try discriminate; assumption.
  - destruct (String.eqb_spec srg "") as [->|Hr];
      cbn [ServerOptions.AWS AWSConfig.AccessKeyID
           AWSConfig.SecretAccessKey AWSConfig.Region ServerOptions.Queue];
      repeat match goal with
             | |- context [if ?b then (_, _) else _] => destruct b
             end;
      cbn [fst ServerOptions.AWS AWSConfig.Region AWSConfig.Bucket];
      repeat split; try discriminate; assumption.
Qed.

(** C9 (amended).  Neither [Close] panics when it is called twice in a row.
    [Server.Close] closes the channel and removes the scratch directory on
    its first call only and returns what the removal gave; every later call
    does nothing and returns nil.  [Client.Close] calls [os.RemoveAll] on
    the scratch directory at every call and returns what that call gave. *)
Theorem close_twice (s : Server W) (c : Client) st :
  (quit_closed st = true -> closeOnce_done st = true) ->
  (exists err1 st1,
      Server_Close R s st = (Done err1, st1)
      /\ Server_Close R s st1 = (Done None, st1)
      /\ (closeOnce_done st = false ->
          err1 = fst (os_RemoveAll R (tempDir (s_common s)) (world st))
          /\ trace st1
             = trace st ++ [Ev CloseQuit true;
                            Ev (RemoveAll (tempDir (s_common s)))
                               (is_nil err1)])
      /\ (closeOnce_done st = true -> err1 = None /\ st1 = st))
  /\ (exists e1 e2 st1 st2,
        Client_Close R c st = (Done e1, st1)
        /\ Client_Close R c st1 = (Done e2, st2)
        /\ e1 = fst (os_RemoveAll R (tempDir (c_common c)) (world st))
        /\ e2 = fst (os_RemoveAll R (tempDir (c_common c)) (world st1))
        /\ trace st2
           = trace st ++ [Ev (RemoveAll (tempDir (c_common c))) (is_nil e1);
                          Ev (RemoveAll (tempDir (c_common c))) (is_nil e2)]).
Proof.
  intros Hinv. split.
  - unfold Server_Close, bind, closeOnce_Do, close_quit, ret.
    destruct (closeOnce_done st) eqn:Hd.
    + exists None, st. rewrite Hd.
      split; [reflexivity|]. split; [reflexivity|].
      split; [discriminate|]. now split.
    + destruct (quit_closed st) eqn:Hq; [now specialize (Hinv eq_refl)|].
      rewrite perform_run. cbn [fst snd world trace closeOnce_done].
      eexists. eexists. split; [reflexivity|].
      cbn [closeOnce_done]. split; [reflexivity|].
      split; [|discriminate].
      intros _. split; [reflexivity|].
      cbn [trace]. now rewrite <- app_assoc.
  - unfold Client_Close.
    do 4 eexists. split; [apply perform_run|]. split; [apply perform_run|].
    split; [reflexivity|]. split; [reflexivity|].
    cbn [trace]. now rewrite <- app_assoc.
Qed.

End LifecycleClaims.

(** ** The properties on concrete runs *)

(** C1: a client with a timeout of one nanosecond and an empty queue.  The
    file is uploaded, the context is done when the polling function first
    looks, and the call returns the zero [Output] with a nil error, without
    a single receive. *)
Lemma timeout_at_select_witness :
  upload Sim.R Sim.theCommon "/tmp/go.mod" Sim.theKey ∅
    (afterUUID Sim.R (Sim.start []))
  = (Done None,
     snd (upload Sim.R Sim.theCommon "/tmp/go.mod" Sim.theKey ∅
            (afterUUID Sim.R (Sim.start []))))
  /\ fst (ExecuteFilename Sim.R (Sim.client 1) "dosomething" "/tmp/go.mod" 5
            (Sim.start []))
     = Done (Output.zero, None)
  /\ calls (trace (snd (ExecuteFilename Sim.R (Sim.client 1) "dosomething"
                          "/tmp/go.mod" 5 (Sim.start []))))
     = [NewUUID; Open "/tmp/go.mod";
        Upload "s3fptest" Sim.theKey "/tmp/go.mod" ∅; WithTimeout 1].
Proof.
  assert (Hu : upload Sim.R Sim.theCommon "/tmp/go.mod" Sim.theKey ∅
                 (afterUUID Sim.R (Sim.start []))
               = (Done None,
                  snd (upload Sim.R Sim.theCommon "/tmp/go.mod" Sim.theKey ∅
                         (afterUUID Sim.R (Sim.start [])))))
    by (vm_compute; reflexivity).
  split; [exact Hu|].
  rewrite (timeout_at_select_returns_no_error Sim.R (Sim.client 1)
             "dosomething" "/tmp/go.mod" 4 (Sim.start []) _ Hu eq_refl).
  split; vm_compute; reflexivity.
Defined.

(** With a timeout of thirty seconds the same call ends in an error: the
    deadline passes inside a receive, and the receive fails. *)
Example timeout_inside_receive :
  fst (ExecuteFilename Sim.R (Sim.client (30 * Second)) "dosomething"
         "/tmp/go.mod" 5 (Sim.start []))
  = Done (Output.zero, Some "apply: context deadline exceeded").
Proof. vm_compute. reflexivity. Qed.

(** C2: the identifier sits in the operation segment of the key and not in
    its base name; the client does not release the message but deletes it,
    downloads the object and returns it. *)
Lemma identifier_outside_basename_is_taken :
  strings.Contains (path.Base (Key Sim.strayMsg)) Sim.theUUID = false
  /\ Bucket Sim.strayMsg = bucket (c_common Sim.theClient)
  /\ exists out st',
      receiveResponse Sim.R Sim.theClient Sim.theUUID Sim.theKey Sim.strayMsg
        (Sim.start [])
      = (Done (ClientReturn out None), st')
      /\ calls (trace st')
         = [DeleteMessage "queue-url" "h7";
            CreateTemp "/tmp/s3rpc" "*_report.txt";
            GetObject "s3fptest" (Key Sim.strayMsg);
            Copy "/tmp/s3rpc/0_report.txt";
            DeleteObject "s3fptest" (Key Sim.strayMsg);
            DeleteObject "s3fptest" Sim.theKey].
Proof.
  split; [reflexivity|]. split; [reflexivity|].
  eexists. eexists. split; vm_compute; reflexivity.
Qed.

Lemma foreign_message_released_witness :
  (Bucket Sim.foreignMsg = bucket (c_common Sim.theClient)
   /\ strings.Contains (Key Sim.foreignMsg) Sim.theUUID = false
   /\ fst (receiveResponse Sim.R Sim.theClient Sim.theUUID Sim.theKey
             Sim.foreignMsg (Sim.start []))
      = Done ClientContinue
   /\ calls (trace (snd (receiveResponse Sim.R Sim.theClient Sim.theUUID
                           Sim.theKey Sim.foreignMsg (Sim.start []))))
      = [ChangeMessageVisibility "queue-url" "h5" 0])
  /\ poll Sim.R Sim.theClient Sim.theUUID Sim.theKey 2
       (Sim.start [[Sim.notifyOf Sim.foreignMsg]])
     = poll Sim.R Sim.theClient Sim.theUUID Sim.theKey 1
         (snd (receiveResponses Sim.R Sim.theClient Sim.theUUID Sim.theKey
                 [Sim.foreignMsg]
                 (snd (Receive Sim.R Sim.theCommon
                         (Sim.start [[Sim.notifyOf Sim.foreignMsg]])))))
  /\ exists st0 st1 pre m post stm,
      Receive Sim.R Sim.theCommon st0 = (Done (Ok (pre ++ m :: post)), st1)
      /\ receiveResponses Sim.R Sim.theClient Sim.theUUID Sim.theKey pre st1
         = (Done ClientContinue, stm)
      /\ receiveResponse Sim.R Sim.theClient Sim.theUUID Sim.theKey m stm
         = (Done (ClientReturn
                    (Output.mk
                       "/tmp/s3rpc/0_123e4567-e89b-42d3-a456-426614174000_go.mod"
                       {[ "foo" := "bar" ]}) None),
            snd (ExecuteFilename Sim.R Sim.theClient "dosomething"
                   "/tmp/go.mod" 5
                   (Sim.start [[Sim.notifyOf Sim.foreignMsg;
                                Sim.notifyOf Sim.responseMsg]])))
      /\ strings.Contains (Key m) Sim.theUUID = true.
Proof.
  destruct (foreign_message_released Sim.R Sim.theClient) as (Ha & Hn & Hb).
  split; [|split].
  - split; [reflexivity|]. split; [reflexivity|].
    destruct (Ha Sim.theUUID Sim.theKey Sim.foreignMsg [] (Sim.start [])
                eq_refl eq_refl) as [-> _].
    split; reflexivity.
  - apply (Hn Sim.theUUID Sim.theKey 1%nat [Sim.foreignMsg]
             (Sim.start [[Sim.notifyOf Sim.foreignMsg]])
             (snd (Receive Sim.R Sim.theCommon
                     (Sim.start [[Sim.notifyOf Sim.foreignMsg]]))));
      reflexivity.
  - destruct (Hb "dosomething" "/tmp/go.mod" 5%nat
                (Sim.start [[Sim.notifyOf Sim.foreignMsg;
                             Sim.notifyOf Sim.responseMsg]])
                (Output.mk
                   "/tmp/s3rpc/0_123e4567-e89b-42d3-a456-426614174000_go.mod"
                   {[ "foo" := "bar" ]})
                (snd (ExecuteFilename Sim.R Sim.theClient "dosomething"
                        "/tmp/go.mod" 5
                        (Sim.start [[Sim.notifyOf Sim.foreignMsg;
                                     Sim.notifyOf Sim.responseMsg]]))))
      as (st2 & fuel0 & st0 & st1 & pre & m & post & stm & evs0 & ok1 & ok2
          & _ & _ & _ & _ & Hr & Hpre & Hm & Hc & _).
    + vm_compute. reflexivity.
    + discriminate.
    + exists st0, st1, pre, m, post, stm. now repeat split.
Defined.



(** C4 on a request for the operation [resize], which has no handler. *)
Lemma unregistered_operation_released_witness :
  Bucket Sim.unknownOpMsg = bucket (s_common Sim.server)
  /\ operationOf (Key Sim.unknownOpMsg) = Some "resize"
  /\ handlers Sim.server !! "resize" = None
  /\ fst (serveMessage Sim.R Sim.server Sim.unknownOpMsg (Sim.start []))
     = Done Continue
  /\ calls (trace (snd (serveMessage Sim.R Sim.server Sim.unknownOpMsg
                          (Sim.start []))))
     = [ChangeMessageVisibility "queue-url" "h2" 0].
Proof.
  split; [reflexivity|]. split; [reflexivity|]. split; [reflexivity|].
  destruct (unregistered_operation_released Sim.R Sim.server Sim.unknownOpMsg
              [] (Sim.start []) "resize" eq_refl eq_refl eq_refl) as [-> _].
  split; reflexivity.
Defined.


(** The call itself returns that error behind the prefix of its own. *)
Example bucket_mismatch_in_call :
  fst (ExecuteFilename Sim.R Sim.theClient "dosomething" "/tmp/go.mod" 5
         (Sim.start [[Sim.notifyOf Sim.otherBucketMsg]]))
  = Done (Output.zero,
          Some ("apply: " +:+ bucketError Sim.R "s3fptest" "elsewhere")).
Proof. vm_compute. reflexivity. Qed.

(** C6 on the request of the call above: the deletion of the message comes
    first, the download and the handler after it, on the world the deletion
    left. *)
Lemma delete_before_work_witness :
  Bucket Sim.requestMsg = bucket (s_common Sim.server)
  /\ operationOf (Key Sim.requestMsg) = Some "dosomething"
  /\ handlers Sim.server !! "dosomething" = Some Sim.dosomething
  /\ fst (sqs_DeleteMessage Sim.R "queue-url" "h1" (world (Sim.start [])))
     = None
  /\ serveMessage Sim.R Sim.server Sim.requestMsg (Sim.start [])
     = (Done Continue,
        snd (serveRequest Sim.R Sim.server Sim.requestMsg "dosomething"
               Sim.dosomething (path.Base (Key Sim.requestMsg))
               (St (snd (sqs_DeleteMessage Sim.R "queue-url" "h1"
                           (world (Sim.start []))))
                   [Ev (DeleteMessage "queue-url" "h1") true] false false)))
  /\ calls (trace (snd (serveMessage Sim.R Sim.server Sim.requestMsg
                          (Sim.start []))))
     = [DeleteMessage "queue-url" "h1";
        CreateTemp "/tmp/s3rpc" "*_123e4567-e89b-42d3-a456-426614174000_go.mod";
        GetObject "s3fptest" Sim.theKey;
        Copy "/tmp/s3rpc/0_123e4567-e89b-42d3-a456-426614174000_go.mod";
        Handle "dosomething"
          (Input.mk "/tmp/s3rpc/0_123e4567-e89b-42d3-a456-426614174000_go.mod"
             {[ "foo" := "bar" ]});
        Open "/tmp/s3rpc/0_123e4567-e89b-42d3-a456-426614174000_go.mod-changed";
        Upload "s3fptest"
          "to_client/dosomething/123e4567-e89b-42d3-a456-426614174000_go.mod"
          "/tmp/s3rpc/0_123e4567-e89b-42d3-a456-426614174000_go.mod-changed"
          {[ "foo" := "bar" ]};
        Remove "/tmp/s3rpc/0_123e4567-e89b-42d3-a456-426614174000_go.mod"]
  /\ exists evs,
      trace (snd (serveMessage Sim.R Sim.server Sim.requestMsg (Sim.start [])))
      = [] ++ evs
      /\ forall i e,
          evs !! i = Some e -> isWork (call e) = true ->
          evs !! 0%nat = Some (Ev (DeleteMessage "queue-url" "h1") true)
          /\ forall j e', (0 < j)%nat -> evs !! j = Some e' ->
                          isQueueOp (call e') = false.
Proof.
  destruct (delete_before_work Sim.R Sim.server Sim.requestMsg (Sim.start []))
    as [Hdel Hord].
  destruct (Hdel "dosomething" Sim.dosomething eq_refl eq_refl eq_refl)
    as [_ Hok].
  split; [reflexivity|]. split; [reflexivity|]. split; [reflexivity|].
  split; [reflexivity|].
  split; [exact (Hok eq_refl)|].
  split; [vm_compute; reflexivity|].
  exact (Hord _ _ (surjective_pairing _)).
Defined.

(** C10 on a key without slash. *)
Lemma operation_extraction_partial_witness :
  Bucket Sim.noSlashMsg = bucket (s_common Sim.server)
  /\ noSlash (Key Sim.noSlashMsg)
  /\ operationOf (Key Sim.noSlashMsg) = None
  /\ serveMessages Sim.R Sim.server [Sim.noSlashMsg; Sim.requestMsg]
       (Sim.start [])
     = (Panic "runtime error: index out of range [1] with length 1",
        Sim.start [])
  /\ fst (ListenAndServe Sim.R Sim.server 3
            (Sim.start [[Sim.notifyOf Sim.noSlashMsg]]))
     = Panic "runtime error: index out of range [1] with length 1".
Proof.
  destruct (operation_extraction_partial Sim.R Sim.server Sim.noSlashMsg
              [Sim.requestMsg] (Sim.start []) eq_refl) as (H1 & _ & H3).
  split; [reflexivity|]. split; [reflexivity|].
  split; [apply H1; reflexivity|].
  split; [apply H3; reflexivity|].
  vm_compute. reflexivity.
Defined.

(** C7: with an empty bucket name both constructors succeed. *)
Lemma construction_without_bucket_succeeds :
  AWSConfig.Bucket (ClientOptions.AWS (Sim.clientOptions "")) = ""
  /\ AWSConfig.Bucket (ServerOptions.AWS (Sim.serverOptions "")) = ""
  /\ fst (NewClient Sim.R (Sim.clientOptions "") (Sim.start []))
     = Done (Ok {| timeout := 5 * Minute;
                   c_common := Common "/tmp/s3rpc_client0" "" "queue-url" |})
  /\ exists sv,
      fst (NewServer Sim.R (Sim.serverOptions "") (Sim.start [])) = Done (Ok sv)
      /\ s_common sv = Common "/tmp/s3rpc_server0" "" "queue-url".
Proof.
  split; [reflexivity|]. split; [reflexivity|]. split; [reflexivity|].
  eexists. split; reflexivity.
Qed.

Lemma construction_requires_credentials_and_queue_witness :
  (exists err,
      NewClient Sim.R
        (ClientOptions.mk "" 0 (AWSConfig.mk "" "s3fptest" "AKIA" "secret"))
        (Sim.start [])
      = (Done (Err err), Sim.start [])
      /\ (err = "access key id is required"
          \/ err = "secret access key is required"
          \/ err = "queue is required"))
  /\ (exists cl st',
         NewClient Sim.R (Sim.clientOptions "s3fptest") (Sim.start [])
         = (Done (Ok cl), st')
         /\ c_common cl = Common "/tmp/s3rpc_client0" "s3fptest" "queue-url")
  /\ AWSConfig.Region
       (ClientOptions.AWS (fst (ClientOptions.init (Sim.clientOptions ""))))
     = "eu-north-1"
  /\ AWSConfig.Region
       (ServerOptions.AWS (fst (ServerOptions.init (Sim.serverOptions ""))))
     = "eu-north-1".
Proof.
  split; [|split].
  - destruct (construction_requires_credentials_and_queue Sim.R
                (ClientOptions.mk "" 0
                   (AWSConfig.mk "" "s3fptest" "AKIA" "secret"))
                (Sim.serverOptions "s3fptest") (Sim.start []))
      as [[[H _] _] _].
    apply H. right. right. reflexivity.
  - destruct (construction_requires_credentials_and_queue Sim.R
                (Sim.clientOptions "s3fptest")
                (Sim.serverOptions "s3fptest") (Sim.start []))
      as [[(_ & _ & H) _] _].
    apply (H ltac:(intros [|[|]]; discriminate) "/tmp/s3rpc_client0"
             (snd (Sim.MkdirTemp_ "" "s3rpc_client"
                     (world (Sim.start []))))).
    reflexivity.
  - destruct (construction_requires_credentials_and_queue Sim.R
                (Sim.clientOptions "") (Sim.serverOptions "") (Sim.start []))
      as (_ & (Hc & _) & (Hs & _)).
    split; [exact Hc|exact Hs].
Defined.

(** C8: a file name with slashes is not rejected; the call uploads the file
    and, with the response in the queue, returns it. *)
Lemma filename_with_slash_is_accepted :
  strings.CountByte "/tmp/go.mod" path.slash = 2%nat
  /\ fst (ExecuteFilename Sim.R Sim.theClient "dosomething" "/tmp/go.mod" 5
            (Sim.start [[Sim.notifyOf Sim.responseMsg]]))
     = Done (Output.mk
               "/tmp/s3rpc/0_123e4567-e89b-42d3-a456-426614174000_go.mod"
               {[ "foo" := "bar" ]}, None)
  /\ calls (trace (snd (ExecuteFilename Sim.R Sim.theClient "dosomething"
                          "/tmp/go.mod" 5
                          (Sim.start [[Sim.notifyOf Sim.responseMsg]]))))
     !! 2%nat
     = Some (Upload "s3fptest"
               "to_server/dosomething/123e4567-e89b-42d3-a456-426614174000_go.mod"
               "/tmp/go.mod" ∅).
Proof. repeat split; vm_compute; reflexivity. Qed.

Lemma filename_base_in_request_key_witness :
  (exists r st' ok rest,
      ExecuteFilename Sim.R Sim.theClient "dosomething" "/tmp/go.mod" 5
        (Sim.start [[Sim.notifyOf Sim.responseMsg]])
      = (r, st')
      /\ trace st' = [] ++ Ev NewUUID true :: Ev (Open "/tmp/go.mod") ok :: rest
      /\ (ok = true ->
          exists ok' rest',
            rest = Ev (Upload "s3fptest"
                         (requestKey "dosomething" Sim.theUUID "/tmp/go.mod")
                         "/tmp/go.mod" ∅) ok' :: rest'))
  /\ strings.Split (requestKey "dosomething" Sim.theUUID "/tmp/go.mod")
       path.slash
     = [toServer; "dosomething"; Sim.theUUID +:+ "_" +:+ "go.mod"].
Proof.
  destruct (filename_base_in_request_key Sim.R Sim.theClient "dosomething"
              "/tmp/go.mod" 5
              (Sim.start [[Sim.notifyOf Sim.responseMsg]])) as [H1 H2].
  split; [exact H1|].
  apply H2; [reflexivity|reflexivity|discriminate].
Defined.

(** C9: the client removes its directory at each of two calls of [Close];
    a server whose removal fails returns the error at the first call and nil
    at the second. *)
Lemma close_twice_differs :
  calls (trace (snd (Client_Close Sim.R Sim.theClient
                       (snd (Client_Close Sim.R Sim.theClient
                               (Sim.start []))))))
  = [RemoveAll "/tmp/s3rpc"; RemoveAll "/tmp/s3rpc"]
  /\ fst (Server_Close Sim.R Sim.server Sim.startFailingRemove)
     = Done (Some "unlinkat /tmp/s3rpc: permission denied")
  /\ fst (Server_Close Sim.R Sim.server
            (snd (Server_Close Sim.R Sim.server Sim.startFailingRemove)))
     = Done None.
Proof. repeat split; vm_compute; reflexivity. Qed.

Lemma close_twice_witness :
  (quit_closed (Sim.start []) = true -> closeOnce_done (Sim.start []) = true)
  /\ (exists err1 st1,
         Server_Close Sim.R Sim.server (Sim.start []) = (Done err1, st1)
         /\ Server_Close Sim.R Sim.server st1 = (Done None, st1)
         /\ calls (trace st1) = [CloseQuit; RemoveAll "/tmp/s3rpc"])
  /\ exists e1 e2 st1 st2,
      Client_Close Sim.R Sim.theClient (Sim.start []) = (Done e1, st1)
      /\ Client_Close Sim.R Sim.theClient st1 = (Done e2, st2)
      /\ calls (trace st2) = [RemoveAll "/tmp/s3rpc"; RemoveAll "/tmp/s3rpc"].
Proof.
  assert (Hinv : quit_closed (Sim.start []) = true ->
                 closeOnce_done (Sim.start []) = true) by discriminate.
  split; [exact Hinv|].
  destruct (close_twice Sim.R Sim.server Sim.theClient (Sim.start []) Hinv)
    as [(err1 & st1 & H1 & H2 & H3 & _) (e1 & e2 & c1 & c2 & C1 & C2 & _ & _ & C3)].
  split.
  - exists err1, st1. split; [exact H1|]. split; [exact H2|].
    destruct (H3 eq_refl) as [_ ->]. reflexivity.
  - exists e1, e2, c1, c2. split; [exact C1|]. split; [exact C2|].
    rewrite C3. reflexivity.
Defined.

(** * Further properties *)

(** ** Receive *)

Section ReceiveFacts.

Context {W : Type} (R : Runtime W).
Implicit Types (raw : list sqsMessage) (st : State W).

(** A body [Receive] accepts: it decodes and has at most one record. *)
Lemma decodeMessages_Ok raw acc :
  Forall (fun r => exists body,
              Body r = Ok body /\ (length (Records body) <= 1)%nat) raw ->
  decodeMessages raw acc = Ok (acc ++ omap messageOf raw).
Proof.
  intros H. revert acc. induction H as [|r raw (body & Hb & Hl) _ IH];
    intros acc; cbn [decodeMessages omap list_omap].
  - now rewrite app_nil_r.
  - unfold messageOf at 1. rewrite Hb.
    destruct body as [[|x [|y rs]]]; cbn in Hl; [| |lia]; cbn [Records].
    + apply IH.
    + rewrite IH, <- app_assoc. reflexivity.
Qed.

Lemma decodeMessages_Ok_inv raw acc ms :
  decodeMessages raw acc = Ok ms ->
  Forall (fun r => exists body,
              Body r = Ok body /\ (length (Records body) <= 1)%nat) raw.
Proof.
  revert acc. induction raw as [|r raw IH]; intros acc H; [constructor|].
  cbn [decodeMessages] in H.
  destruct (Body r) as [[[|x [|y rs]]]|e] eqn:Hb; cbn [Records] in H;
    try discriminate.
  - constructor; [|eauto]. exists (MessageBody []). split; [exact Hb|].
    cbn. lia.
  - constructor; [|eauto]. exists (MessageBody [x]). split; [exact Hb|].
    cbn. lia.
Qed.

(** X1.  [Receive] makes one call, a receive of at most five messages
    with a lease of seven seconds and a wait of twenty, and returns without
    panic (the bodies and receipt handles of the SQS messages being set).
    When SQS fails, [Receive] returns that error.  When SQS answers,
    [Receive] succeeds exactly when every body decodes to at most one
    record, and it then returns one message for each body of one record, in
    the order received and with the receipt handle of its SQS message;
    bodies without record give nothing. *)
Theorem Receive_messages (c : common) st :
  let answer :=
    sqs_ReceiveMessage R (queue c) 5 visibilitySeconds 20 (world st) in
  let st' := St (snd answer)
                (trace st
                 ++ [Ev (ReceiveMessage (queue c) 5 7 20) (is_Ok (fst answer))])
                (quit_closed st) (closeOnce_done st) in
  (exists r, Receive R c st = (Done r, st'))
  /\ match fst answer with
     | Err e => Receive R c st = (Done (Err e), st')
     | Ok raw =>
         (Forall (fun r => exists body,
                      Body r = Ok body /\ (length (Records body) <= 1)%nat) raw
          <-> exists ms, Receive R c st = (Done (Ok ms), st'))
         /\ forall ms, Receive R c st = (Done (Ok ms), st') ->
                       ms = omap messageOf raw
     end.
Proof.
  intros answer st'.
  assert (Hrun : Receive R c st
                 = (Done (match fst answer with
                          | Err e => Err e
                          | Ok raw => decodeMessages raw []
                          end), st')).
  { unfold Receive, bind. rewrite perform_run. fold answer st'.
    now destruct (fst answer). }
  split; [eauto|].
  destruct (fst answer) as [raw|e]; [|exact Hrun].
  split; [split|].
  - intros H. exists (omap messageOf raw).
    rewrite Hrun. now rewrite (decodeMessages_Ok raw [] H).
  - intros [ms H]. rewrite Hrun in H. injection H as H.
    now apply decodeMessages_Ok_inv in H.
  - intros ms H. rewrite Hrun in H. injection H as H.
    pose proof (decodeMessages_Ok_inv _ _ _ H) as Hall.
    rewrite (decodeMessages_Ok raw [] Hall) in H. now injection H.
Qed.

(** X2.  One body that does not decode, or that has more than one record,
    makes [Receive] fail with the decoding error or with the count of the
    records, and none of the messages of the batch is returned: those before
    it that were accepted are dropped with it. *)
Theorem Receive_rejects_batch (c : common) st pre r post w' :
  sqs_ReceiveMessage R (queue c) 5 visibilitySeconds 20 (world st)
  = (Ok (pre ++ r :: post), w') ->
  Forall (fun r => exists body,
              Body r = Ok body /\ (length (Records body) <= 1)%nat) pre ->
  let st' := St w' (trace st ++ [Ev (ReceiveMessage (queue c) 5 7 20) true])
                (quit_closed st) (closeOnce_done st) in
  (forall e, Body r = Err e -> Receive R c st = (Done (Err e), st'))
  /\ (forall body,
         Body r = Ok body -> (1 < length (Records body))%nat ->
         Receive R c st
         = (Done (Err ("expected only one record, got "
                       +:+ pretty (length (Records body)))), st')).
Proof.
  intros Hr Hpre st'.
  assert (Hrun : Receive R c st
                 = (Done (decodeMessages (pre ++ r :: post) []), st')).
  { unfold Receive, bind. rewrite perform_run, Hr. reflexivity. }
  assert (Happ : forall acc,
    decodeMessages (pre ++ r :: post) acc
    = decodeMessages (r :: post) (acc ++ omap messageOf pre)).
  { clear Hrun Hr. generalize (r :: post). intros rest.
    induction Hpre as [|x pre (body & Hb & Hl) _ IH]; intros acc.
    - cbn. now rewrite app_nil_r.
    - destruct body as [[|y [|z rs]]]; cbn in Hl; [| |lia].
      + assert (Hm : messageOf x = None)
          by (unfold messageOf; now rewrite Hb).
        cbn [app decodeMessages omap list_omap]. rewrite Hb, Hm.
        cbn [Records]. apply IH.
      + assert (Hm : messageOf x
                     = Some (Message (Bucket_Name y) (Object_Key y)
                               (sqs_ReceiptHandle x)))
          by (unfold messageOf; now rewrite Hb).
        cbn [app decodeMessages omap list_omap]. rewrite Hb, Hm.
        cbn [Records]. rewrite IH, <- app_assoc. reflexivity. }
  rewrite Hrun, Happ. cbn [decodeMessages]. split.
  - intros e ->. reflexivity.
  - intros body -> Hl. destruct body as [[|y [|z rs]]]; cbn in Hl; try lia.
    reflexivity.
Qed.

End ReceiveFacts.

(** ** Upload and the server's handling of one request *)

Section ServerExtras.

Context {W : Type} (R : Runtime W).
Implicit Types (s : Server W) (m : message) (st : State W).

(** What [upload] calls and returns, case by case. *)
Lemma upload_trace (c : common) filename key md st r st' :
  upload R c filename key md st = (r, st') ->
  exists evs,
    trace st' = trace st ++ evs /\
    ((r = Done (fst (os_Open R filename (world st)))
      /\ fst (os_Open R filename (world st)) <> None
      /\ evs = [Ev (Open filename) false])
     \/ (exists e,
            r = Done (Some ("upload: " +:+ e))
            /\ evs = [Ev (Open filename) true;
                      Ev (Upload (bucket c) key filename md) false])
     \/ (r = Done None
         /\ evs = [Ev (Open filename) true;
                   Ev (Upload (bucket c) key filename md) true])).
Proof.
  intros H. unfold upload, bind, ret, perform in H.
  destruct (os_Open R filename (world st)) as [[e|] w1] eqn:Eo;
    cbn beta iota delta [fst snd world trace quit_closed closeOnce_done] in H.
  - injection H as <- <-. eexists. split; [reflexivity|]. left.
    now repeat split.
  - repeat step_in H; injection H as <- <-; finish_trace; eauto 6.
Qed.



(** X5.  The server passes from a message to the next one only in two
    ways.  Either the operation of the message has no handler and the
    release of the message succeeded, which is then the only call.  Or every
    step for it succeeded, each on the world the step before it left:
    deletion of the message, scratch file, download into it, copy, the
    registered handler on that file and the metadata of the downloaded
    object, opening of the file the handler returned, upload of that file
    with the metadata the handler returned under [to_client/op/base],
    removal of the scratch file. *)
Theorem message_passed s m st st' :
  serveMessage R s m st = (Done Continue, st') ->
  let q := queue (s_common s) in
  let b := bucket (s_common s) in
  (exists op,
      operationOf (Key m) = Some op
      /\ handlers s !! op = None
      /\ sqs_ChangeMessageVisibility R q (ReceiptHandle m) 0 (world st)
         = (None, world st')
      /\ trace st'
         = trace st ++ [Ev (ChangeMessageVisibility q (ReceiptHandle m) 0) true])
  \/ (exists op (handle : Handler W) w1 f w2 o w3 w4 out w5 w6 w7,
         operationOf (Key m) = Some op
         /\ handlers s !! op = Some handle
         /\ sqs_DeleteMessage R q (ReceiptHandle m) (world st) = (None, w1)
         /\ os_CreateTemp R (tempDir (s_common s))
              ("*_" +:+ path.Base (Key m)) w1
            = (Ok f, w2)
         /\ s3_GetObject R b (Key m) w2 = (Ok o, w3)
         /\ io_Copy R f (o_Body o) w3 = (None, w4)
         /\ handle (Input.mk f (o_Metadata o)) w4 = (Ok out, w5)
         /\ os_Open R (Output.Filename out) w5 = (None, w6)
         /\ s3_Upload R b
              (toClient +:+ "/" +:+ op +:+ "/" +:+ path.Base (Key m))
              (Output.Filename out) (Output.Metadata out) w6
            = (None, w7)
         /\ world st' = snd (os_Remove R f w7)
         /\ trace st'
            = trace st
              ++ answerRequest (s_common s) m op f (o_Metadata o) out
                   (is_nil (fst (os_Remove R f w7)))).
Proof.
  intros H q b.
  unfold serveMessage, serveRequest, getObject, upload, deleteMessage,
    releaseMessage, bind, ret, panic, perform in H.
  destruct (negb (Bucket m =? bucket (s_common s))%string); [discriminate|].
  destruct (operationOf (Key m)) as [op|]; [|discriminate].
  destruct (handlers s !! op) as [handle|] eqn:Eh.
  all: repeat step_in H; try discriminate; injection H as <-.
  - right.
    match goal with
    | E1 : sqs_DeleteMessage R _ _ _ = (None, ?w1),
      E2 : os_CreateTemp R _ _ _ = (Ok ?f, ?w2),
      E3 : s3_GetObject R _ _ _ = (Ok ?o, ?w3),
      E4 : io_Copy R _ _ _ = (None, ?w4),
      E5 : handle _ _ = (Ok ?out, ?w5),
      E6 : os_Open R _ _ = (None, ?w6),
      E7 : s3_Upload R _ _ _ _ _ = (None, ?w7),
      E8 : os_Remove R _ _ = _ |- _ =>
        exists op, handle, w1, f, w2, o, w3, w4, out, w5, w6, w7;
        rewrite E8
    end.
    cbn [world trace fst snd]. unfold answerRequest.
    rewrite <- !app_assoc.
    repeat split; assumption || reflexivity.
  - left. exists op. cbn [world trace]. now repeat split.
Qed.


(** X7.  A batch ends at the first message that does not let the loop go
    on (an error or a panic): the messages after it are not looked at, so
    they are neither deleted nor released. *)
Theorem batch_stops_at_first_failure s pre post st0 r st :
  serveMessages R s pre st0 = (r, st) ->
  r <> Done Continue ->
  serveMessages R s (pre ++ post) st0 = (r, st).
Proof.
  revert st0. induction pre as [|m pre IH]; intros st0 H Hr.
  - injection H as <- <-. contradiction.
  - cbn [serveMessages app] in *. unfold bind in *.
    destruct (serveMessage R s m st0) as [[[|err]| |] st1]; try exact H.
    now apply IH.
Qed.

End ServerExtras.

(** ** The server's loop *)

Lemma HasPrefix_app s p : strings.HasPrefix (p +:+ s) p = true.
Proof. apply HasPrefix_spec. now exists s. Qed.

Lemma HasPrefix_toClient x :
  strings.HasPrefix (toClient +:+ "/" +:+ x) (toClient +:+ "/") = true.
Proof. apply HasPrefix_spec. now exists x. Qed.

Lemma HasPrefix_toServer x :
  strings.HasPrefix (toServer +:+ "/" +:+ x) (toServer +:+ "/") = true.
Proof. apply HasPrefix_spec. now exists x. Qed.

Section LoopExtras.

Context {W : Type} (R : Runtime W).
Implicit Types (s : Server W) (m : message) (st : State W).

Lemma Receive_serverEvent s st r st' :
  Receive R (s_common s) st = (r, st') ->
  exists evs, trace st' = trace st ++ evs
              /\ Forall (fun e => serverEvent s e = true) evs.
Proof.
  unfold Receive, bind, ret, perform. intros H.
  repeat step_in H; injection H as <- <-; eexists; (split; [reflexivity|]).
  all: repeat constructor; cbn [serverEvent call];
    now rewrite String.eqb_refl.
Qed.

Lemma serveMessage_serverEvent s m st r st' :
  serveMessage R s m st = (r, st') ->
  exists evs, trace st' = trace st ++ evs
              /\ Forall (fun e => serverEvent s e = true) evs.
Proof.
  intros H.
  unfold serveMessage, serveRequest, getObject, upload, deleteMessage,
    releaseMessage, bind, ret, panic, perform in H.
  destruct (negb (Bucket m =? bucket (s_common s))%string).
  { injection H as <- <-. exists []. split; [now rewrite app_nil_r|constructor]. }
  destruct (operationOf (Key m)) as [op|].
  2:{ injection H as <- <-. exists []. split; [now rewrite app_nil_r|constructor]. }
  destruct (handlers s !! op) as [handle|] eqn:Eh.
  all: repeat step_in H; injection H as <- <-; finish_trace.
  all: repeat constructor; cbn [serverEvent call];
    rewrite ?String.eqb_refl, ?Eh, ?HasPrefix_toClient, ?HasPrefix_app;
    reflexivity.
Qed.

Lemma serveMessages_serverEvent s ms st r st' :
  serveMessages R s ms st = (r, st') ->
  exists evs, trace st' = trace st ++ evs
              /\ Forall (fun e => serverEvent s e = true) evs.
Proof.
  revert st. induction ms as [|m ms IH]; intros st H.
  - injection H as <- <-. exists []. split; [now rewrite app_nil_r|constructor].
  - cbn [serveMessages] in H. unfold bind in H.
    destruct (serveMessage R s m st) as [r1 st1] eqn:E.
    apply serveMessage_serverEvent in E as (e1 & He1 & Hf1).
    destruct r1 as [[|err]| |];
      try (injection H as <- <-; eauto; fail).
    apply IH in H as (e2 & He2 & Hf2). exists (e1 ++ e2).
    split; [now rewrite He2, He1, app_assoc|now apply Forall_app].
Qed.

(** X8.  Every call the server's loop makes is one of: a receive on the
    configured queue (at most five messages, lease seven seconds, wait
    twenty), a deletion or a release (lease zero, no other value) of a
    message of that queue, the creation of a scratch file in the server's
    directory, a download from the configured bucket, a run of a handler for
    an operation that has one, the opening of a file, an upload to the
    configured bucket under [to_client/], the removal of a file, a sleep of
    the poll interval.  In particular the loop never deletes an object, never
    uploads outside [to_client/] and never removes its scratch directory. *)
Theorem server_calls s fuel st r st' :
  ListenAndServe R s fuel st = (r, st') ->
  exists evs,
    trace st' = trace st ++ evs
    /\ Forall (fun e => serverEvent s e = true) evs.
Proof.
  revert st. induction fuel as [|fuel IH]; intros st H.
  - injection H as <- <-. exists []. split; [now rewrite app_nil_r|constructor].
  - cbn [ListenAndServe] in H.
    destruct (quit_closed st).
    { injection H as <- <-. exists []. split; [now rewrite app_nil_r|constructor]. }
    destruct (ctx_Done R (world st)).
    { injection H as <- <-. exists []. split; [now rewrite app_nil_r|constructor]. }
    unfold bind, ret in H.
    destruct (Receive R (s_common s) st) as [r1 st1] eqn:Er.
    apply Receive_serverEvent in Er as (e1 & He1 & Hf1).
    destruct r1 as [[ms|e]| |];
      try (injection H as <- <-; eauto; fail).
    destruct (serveMessages R s ms st1) as [r2 st2] eqn:Es.
    apply serveMessages_serverEvent in Es as (e2 & He2 & Hf2).
    assert (H12 : trace st2 = trace st ++ (e1 ++ e2))
      by now rewrite He2, He1, app_assoc.
    assert (Hf12 : Forall (fun e => serverEvent s e = true) (e1 ++ e2))
      by now apply Forall_app.
    destruct r2 as [[|err]| |];
      try (injection H as <- <-; eauto; fail).
    unfold perform_ in H. rewrite perform_run in H.
    apply IH in H as (e3 & He3 & Hf3). cbn [trace] in He3.
    exists ((e1 ++ e2) ++ Ev (Sleep (pollIntervall s)) true :: e3).
    split.
    + rewrite He3, H12, <- !app_assoc. reflexivity.
    + apply Forall_app. split; [exact Hf12|].
      constructor; [|exact Hf3]. cbn [serverEvent call]. apply Z.eqb_refl.
Qed.

(** X9.  The loop returns nil only when it found the server closed or the
    context done; every other way out of it is an error or a panic. *)
Theorem serve_returns_nil_only_when_stopped s fuel st st' :
  ListenAndServe R s fuel st = (Done None, st') ->
  quit_closed st' = true \/ ctx_Done R (world st') = true.
Proof.
  revert st. induction fuel as [|fuel IH]; intros st H; [discriminate|].
  cbn [ListenAndServe] in H.
  destruct (quit_closed st) eqn:Hq; [injection H as <-; now left|].
  destruct (ctx_Done R (world st)) eqn:Hc; [injection H as <-; now right|].
  unfold bind, ret in H.
  destruct (Receive R (s_common s) st) as [[[ms|e]| |] st1]; try discriminate.
  destruct (serveMessages R s ms st1) as [[[|err]| |] st2]; try discriminate.
  unfold perform_ in H. rewrite perform_run in H. now apply IH in H.
Qed.

(** X10.  A server that has been closed does not poll: after [Close], on a
    server whose two flags agree (as they do from [NewServer] on),
    [ListenAndServe] returns nil at once, without a call. *)
Theorem closed_server_does_not_poll s fuel st r st1 :
  closeOnce_done st = quit_closed st ->
  Server_Close R s st = (r, st1) ->
  (exists err, r = Done err)
  /\ ListenAndServe R s (S fuel) st1 = (Done None, st1).
Proof.
  intros Hinv H.
  unfold Server_Close, bind, closeOnce_Do, close_quit, ret in H.
  destruct (closeOnce_done st) eqn:Hd.
  - injection H as <- <-. split; [eauto|].
    cbn [ListenAndServe]. now rewrite <- Hinv.
  - rewrite <- Hinv in H. rewrite perform_run in H.
    cbn [fst snd world trace closeOnce_done quit_closed] in H.
    injection H as <- <-. split; [eauto|]. reflexivity.
Qed.

Lemma omap_messageOf_empty (raw : list sqsMessage) :
  Forall (fun r => Body r = Ok (MessageBody [])) raw ->
  omap messageOf raw = [].
Proof.
  induction 1 as [|x l Hx _ IH]; [reflexivity|].
  cbn [omap list_omap]. unfold messageOf at 1. now rewrite Hx.
Qed.

(** X11.  A batch in which no body has a record is no error: the server
    sleeps for the poll interval and receives again. *)
Theorem idle_turn_sleeps s fuel st raw w' :
  quit_closed st = false ->
  ctx_Done R (world st) = false ->
  sqs_ReceiveMessage R (queue (s_common s)) 5 visibilitySeconds 20 (world st)
  = (Ok raw, w') ->
  Forall (fun r => Body r = Ok (MessageBody [])) raw ->
  ListenAndServe R s (S fuel) st
  = ListenAndServe R s fuel
      (St (time_Sleep R (pollIntervall s) w')
          (trace st
           ++ [Ev (ReceiveMessage (queue (s_common s)) 5 7 20) true;
               Ev (Sleep (pollIntervall s)) true])
          (quit_closed st) (closeOnce_done st)).
Proof.
  intros Hq Hc Hr Hall.
  assert (Hdec : decodeMessages raw [] = Ok []).
  { rewrite decodeMessages_Ok.
    - now rewrite omap_messageOf_empty.
    - eapply Forall_impl; [exact Hall|]. intros x Hx.
      exists (MessageBody []). split; [exact Hx|]. cbn. lia. }
  cbn [ListenAndServe]. rewrite Hq, Hc.
  unfold bind at 1. unfold Receive, bind at 1. rewrite perform_run, Hr.
  cbn [fst snd]. unfold ret at 1. rewrite Hdec.
  cbn [serveMessages]. unfold bind at 1, ret at 1.
  unfold bind, perform_. rewrite perform_run.
  cbn [fst snd world trace quit_closed closeOnce_done].
  now rewrite <- app_assoc, ?Hq.
Qed.

End LoopExtras.

(** ** The client's call *)

Section ClientExtras.

Context {W : Type} (R : Runtime W).
Implicit Types (c : Client) (m : message) (st : State W).

Lemma Receive_clientEvent c filename st r st' :
  Receive R (c_common c) st = (r, st') ->
  exists evs, trace st' = trace st ++ evs
              /\ Forall (fun e => clientEvent c filename e = true) evs
              /\ Forall (fun e => isDeleteObject (call e) = false) evs.
Proof.
  unfold Receive, bind, ret, perform. intros H.
  repeat step_in H; injection H as <- <-; eexists; (split; [reflexivity|]).
  all: split; repeat constructor; cbn [clientEvent call];
    now rewrite String.eqb_refl.
Qed.

Lemma receiveResponse_calls c filename id key m st r st' :
  receiveResponse R c id key m st = (r, st') ->
  exists evs,
    trace st' = trace st ++ evs
    /\ Forall (fun e => clientEvent c filename e = true) evs
    /\ deletesOnlyAtEnd c key
         (match r with
          | Done (ClientReturn out err) => Some (out, err)
          | _ => None
          end) evs.
Proof.
  intros H.
  unfold receiveResponse, getObject, deleteObject, deleteMessage,
    releaseMessage, bind, ret, perform in H.
  destruct (negb (Bucket m =? bucket (c_common c))%string).
  { injection H as <- <-. exists []. split; [now rewrite app_nil_r|].
    split; [constructor|left; constructor]. }
  destruct (negb (strings.Contains (Key m) id)).
  all: repeat step_in H; injection H as <- <-; finish_trace.
  all: split;
    [repeat constructor; cbn [clientEvent call];
     rewrite ?String.eqb_refl, ?HasPrefix_app; reflexivity|].
  all: try (left; repeat constructor; fail).
  right. eexists _, [], m, _, _. split; [reflexivity|].
  split; [reflexivity|constructor].
Qed.

Lemma receiveResponses_calls c filename id key ms st r st' :
  receiveResponses R c id key ms st = (r, st') ->
  exists evs,
    trace st' = trace st ++ evs
    /\ Forall (fun e => clientEvent c filename e = true) evs
    /\ deletesOnlyAtEnd c key
         (match r with
          | Done (ClientReturn out err) => Some (out, err)
          | _ => None
          end) evs.
Proof.
  revert st. induction ms as [|m ms IH]; intros st H.
  - injection H as <- <-. exists []. split; [now rewrite app_nil_r|].
    split; [constructor|left; constructor].
  - cbn [receiveResponses] in H. unfold bind in H.
    destruct (receiveResponse R c id key m st) as [r1 st1] eqn:E.
    apply (receiveResponse_calls c filename) in E as (e1 & He1 & Hf1 & Hd1).
    destruct r1 as [[|o e]| |];
      try (injection H as <- <-; exists e1; now repeat split).
    destruct Hd1 as [Hd1|(? & ? & ? & ? & ? & [=] & _)].
    apply IH in H as (e2 & He2 & Hf2 & Hd2). exists (e1 ++ e2).
    split; [now rewrite He2, He1, app_assoc|].
    split; [now apply Forall_app|].
    destruct Hd2 as [Hd2|(out & t & m' & ok1 & ok2 & Hr & -> & Ht)].
    + left. now apply Forall_app.
    + right. exists out, (e1 ++ t), m', ok1, ok2.
      split; [exact Hr|]. split; [now rewrite app_assoc|now apply Forall_app].
Qed.

Lemma poll_calls c filename id key fuel st r st' :
  poll R c id key fuel st = (r, st') ->
  exists evs,
    trace st' = trace st ++ evs
    /\ Forall (fun e => clientEvent c filename e = true) evs
    /\ deletesOnlyAtEnd c key
         (match r with Done x => Some x | _ => None end) evs.
Proof.
  revert st. induction fuel as [|fuel IH]; intros st H.
  - injection H as <- <-. exists []. split; [now rewrite app_nil_r|].
    split; [constructor|left; constructor].
  - cbn [poll] in H. destruct (ctx_Done R (world st)).
    { injection H as <- <-. exists []. split; [now rewrite app_nil_r|].
      split; [constructor|left; constructor]. }
    unfold bind, ret in H.
    destruct (Receive R (c_common c) st) as [r1 st1] eqn:Er.
    apply (Receive_clientEvent c filename) in Er as (e1 & He1 & Hf1 & Hd1).
    destruct r1 as [[ms|e]| |];
      try (injection H as <- <-; exists e1; split; [exact He1|];
           split; [exact Hf1|now left]).
    destruct (receiveResponses R c id key ms st1) as [r2 st2] eqn:Es.
    apply (receiveResponses_calls c filename) in Es
      as (e2 & He2 & Hf2 & Hd2).
    assert (H12 : trace st2 = trace st ++ (e1 ++ e2))
      by now rewrite He2, He1, app_assoc.
    assert (Hf12 : Forall (fun e => clientEvent c filename e = true)
                     (e1 ++ e2)) by now apply Forall_app.
    destruct r2 as [[|o e]| |].
    + destruct Hd2 as [Hd2|(? & ? & ? & ? & ? & [=] & _)].
      apply IH in H as (e3 & He3 & Hf3 & Hd3). exists ((e1 ++ e2) ++ e3).
      split; [now rewrite He3, H12, <- app_assoc|].
      split; [now apply Forall_app|].
      destruct Hd3 as [Hd3|(out & t & m' & ok1 & ok2 & Hr & -> & Ht)].
      * left. repeat (apply Forall_app; split); assumption.
      * right. exists out, ((e1 ++ e2) ++ t), m', ok1, ok2.
        split; [exact Hr|]. split; [now rewrite <- !app_assoc|].
        repeat (apply Forall_app; split); assumption.
    + injection H as <- <-. exists (e1 ++ e2).
      split; [exact H12|]. split; [exact Hf12|].
      destruct Hd2 as [Hd2|(out & t & m' & ok1 & ok2 & Hr & -> & Ht)].
      * left. now apply Forall_app.
      * right. exists out, (e1 ++ t), m', ok1, ok2.
        split; [exact Hr|]. split; [now rewrite app_assoc|].
        now apply Forall_app.
    + injection H as <- <-. exists (e1 ++ e2).
      split; [exact H12|]. split; [exact Hf12|].
      destruct Hd2 as [Hd2|(? & ? & ? & ? & ? & [=] & _)].
      left. now apply Forall_app.
    + injection H as <- <-. exists (e1 ++ e2).
      split; [exact H12|]. split; [exact Hf12|].
      destruct Hd2 as [Hd2|(? & ? & ? & ? & ? & [=] & _)].
      left. now apply Forall_app.
Qed.

End ClientExtras.

Section ClientCallExtras.

Context {W : Type} (R : Runtime W).
Implicit Types (c : Client) (m : message) (st : State W).

Lemma ExecuteFilename_calls c op filename fuel st r st' :
  ExecuteFilename R c op filename fuel st = (r, st') ->
  let id := fst (uuid_New R (world st)) in
  exists evs,
    trace st' = trace st ++ evs
    /\ Forall (fun e => clientEvent c filename e = true) evs
    /\ deletesOnlyAtEnd c (requestKey op id filename)
         (match r with Done x => Some x | _ => None end) evs.
Proof.
  intros H id. unfold ExecuteFilename in H.
  unfold bind at 1 in H. rewrite perform_run in H. fold id in H.
  unfold bind at 1 in H.
  destruct (upload R (c_common c) filename (requestKey op id filename) ∅ _)
    as [r1 st1] eqn:Eu.
  assert (Hu : exists e1,
    trace st1 = trace st ++ Ev NewUUID true :: e1
    /\ Forall (fun e => clientEvent c filename e = true) e1
    /\ Forall (fun e => isDeleteObject (call e) = false) e1).
  { apply upload_trace in Eu as (e1 & He1 & Hc). exists e1.
    cbn [trace] in He1. split; [now rewrite He1, <- app_assoc|].
    destruct Hc as [(_ & _ & ->)|[(e & _ & ->)|(_ & ->)]].
    all: split; repeat constructor; cbn [clientEvent call].
    all: unfold requestKey;
      rewrite ?String.eqb_refl, ?HasPrefix_toServer; try reflexivity.
    all: now rewrite bool_decide_eq_true_2. }
  destruct Hu as (e1 & He1 & Hf1 & Hd1).
  assert (Hstop : forall x, (forall out, x <> Some (out, @None error)) ->
    exists evs,
      trace st1 = trace st ++ evs
      /\ Forall (fun e => clientEvent c filename e = true) evs
      /\ deletesOnlyAtEnd c (requestKey op id filename) x evs).
  { intros x _. exists (Ev NewUUID true :: e1). split; [exact He1|].
    split; [now constructor|]. left. now constructor. }
  destruct r1 as [[e|]| |]; try (injection H as <- <-; now apply Hstop).
  unfold bind at 1 in H. unfold perform_ in H. rewrite perform_run in H.
  cbn [fst snd] in H. unfold bind, ret in H.
  match type of H with
  | context [poll R c id ?k fuel ?s] =>
      destruct (poll R c id k fuel s) as [r3 st3] eqn:Ep
  end.
  apply (poll_calls R c filename) in Ep as (e3 & He3 & Hf3 & Hd3).
  cbn [trace] in He3.
  set (pre := Ev NewUUID true :: e1 ++ [Ev (WithTimeout (timeout c)) true]).
  assert (Ht : trace st3 = trace st ++ pre ++ e3).
  { rewrite He3, He1. unfold pre.
    repeat (rewrite <- app_assoc || rewrite <- app_comm_cons). reflexivity. }
  assert (Hfp : Forall (fun e => clientEvent c filename e = true) pre).
  { unfold pre. constructor; [reflexivity|]. apply Forall_app. split; [exact Hf1|].
    repeat constructor. cbn [clientEvent call]. apply Z.eqb_refl. }
  assert (Hdp : Forall (fun e => isDeleteObject (call e) = false) pre).
  { unfold pre. constructor; [reflexivity|]. apply Forall_app. split; [exact Hd1|].
    now repeat constructor. }
  assert (Hst : st' = st3).
  { destruct r3 as [[o [e|]]| |]; now injection H. }
  subst st'. exists (pre ++ e3). split; [exact Ht|].
  split; [now apply Forall_app|].
  destruct Hd3 as [Hd3|(out & t & m' & ok1 & ok2 & Hr & -> & Ht')].
  - left. now apply Forall_app.
  - right. destruct r3 as [[o [e|]]| |]; try discriminate.
    injection Hr as ->. injection H as <-.
    exists out, (pre ++ t), m', ok1, ok2.
    split; [reflexivity|]. split; [now rewrite app_assoc|].
    now apply Forall_app.
Qed.

(** X12.  Every call that [ExecuteFilename] makes is one of: the draw of
    the identifier, the opening of the input file, its upload without
    metadata to the configured bucket under [to_server/], the timeout of the
    context, a receive on the configured queue, a deletion or a release
    (lease zero) of a message of that queue, the creation of a scratch file
    in the client's directory, a download, a copy, the deletion of an object
    of the configured bucket.  In particular the call never sleeps between
    two receives and never removes a file it created. *)
Theorem client_calls c op filename fuel st r st' :
  ExecuteFilename R c op filename fuel st = (r, st') ->
  exists evs,
    trace st' = trace st ++ evs
    /\ Forall (fun e => clientEvent c filename e = true) evs.
Proof.
  intros H. apply ExecuteFilename_calls in H as (evs & Ht & Hf & _). eauto.
Qed.

(** X13.  A call deletes objects only as its last act, once it has a
    response: a call that returns an error, or nothing but the zero [Output]
    because its context was done, has deleted no object, so that its request
    object is still in the bucket. *)
Theorem objects_deleted_only_with_response c op filename fuel st r st' :
  ExecuteFilename R c op filename fuel st = (r, st') ->
  let key := requestKey op (fst (uuid_New R (world st))) filename in
  exists evs,
    trace st' = trace st ++ evs
    /\ (Forall (fun e => isDeleteObject (call e) = false) evs
        \/ exists out t m ok1 ok2,
            r = Done (out, None)
            /\ evs = t ++ takeResponse c key m (Output.Filename out) ok1 ok2
            /\ Forall (fun e => isDeleteObject (call e) = false) t).
Proof.
  intros H key. apply ExecuteFilename_calls in H as (evs & Ht & _ & Hd).
  exists evs. split; [exact Ht|].
  destruct Hd as [Hd|(out & t & m & ok1 & ok2 & Hr & He & Hft)]; [now left|].
  right. exists out, t, m, ok1, ok2. split; [|now split].
  destruct r as [x| |]; try discriminate. now injection Hr as ->.
Qed.

(** X14.  Whenever a call returns an error its [Output] is the zero value,
    also when a scratch file was already created, and the text of the error
    begins with [apply: ]. *)
Theorem call_error_shape c op filename fuel st out err st' :
  ExecuteFilename R c op filename fuel st = (Done (out, Some err), st') ->
  out = Output.zero /\ exists e, err = "apply: " +:+ e.
Proof.
  intros H. unfold ExecuteFilename in H.
  unfold bind at 1 in H. rewrite perform_run in H.
  unfold bind at 1 in H.
  match type of H with
  | context [upload R ?a ?b ?k ?d ?s] =>
      destruct (upload R a b k d s) as [[[e|]| |] st1]
  end; try discriminate.
  { injection H as <- <- <-. eauto. }
  unfold bind at 1 in H. unfold perform_ in H. rewrite perform_run in H.
  unfold bind, ret in H.
  match type of H with
  | context [poll R c ?i ?k fuel ?s] =>
      destruct (poll R c i k fuel s) as [[[o [e|]]| |] st3]
  end; try discriminate.
  injection H as <- <- <-. eauto.
Qed.

(** X15.  When the message matches and the deletion of the message, the
    scratch file, the download and the copy succeed, the call has its
    response: the [Output] is the scratch file and the metadata of the
    downloaded object, and the error is nil whatever the two deletions of
    objects that follow return. *)
Theorem response_taken c id key m st w1 f w2 o w3 w4 :
  Bucket m = bucket (c_common c) ->
  strings.Contains (Key m) id = true ->
  sqs_DeleteMessage R (queue (c_common c)) (ReceiptHandle m) (world st)
  = (None, w1) ->
  os_CreateTemp R (tempDir (c_common c)) ("*_" +:+ path.Base (Key m)) w1
  = (Ok f, w2) ->
  s3_GetObject R (bucket (c_common c)) (Key m) w2 = (Ok o, w3) ->
  io_Copy R f (o_Body o) w3 = (None, w4) ->
  exists ok1 ok2 w6,
    receiveResponse R c id key m st
    = (Done (ClientReturn (Output.mk f (o_Metadata o)) None),
       St w6 (trace st ++ takeResponse c key m f ok1 ok2)
          (quit_closed st) (closeOnce_done st)).
Proof.
  intros Hb Hc Hd Ht Hg Hcp.
  unfold receiveResponse, getObject, deleteObject, deleteMessage, bind, ret.
  rewrite Hb, String.eqb_refl, Hc. cbn [negb].
  rewrite !perform_run. cbn [world fst snd]. rewrite Hd. cbn [fst snd].
  rewrite !perform_run. cbn [world fst snd]. rewrite Ht. cbn [fst snd].
  rewrite !perform_run. cbn [world fst snd]. rewrite Hg. cbn [fst snd].
  rewrite !perform_run. cbn [world fst snd]. rewrite Hcp. cbn [fst snd].
  rewrite !perform_run.
  cbn [world fst snd trace quit_closed closeOnce_done is_nil is_Ok].
  do 3 eexists. rewrite <- !app_assoc. reflexivity.
Qed.

(** X16.  When the upload of the request fails the call returns at once,
    whatever the fuel: the error is that of the upload behind [apply: ], and
    no context with a timeout is made and nothing is received. *)
Theorem upload_failure_ends_call c op filename fuel st e st2 :
  let id := fst (uuid_New R (world st)) in
  upload R (c_common c) filename (requestKey op id filename) ∅ (afterUUID R st)
  = (Done (Some e), st2) ->
  ExecuteFilename R c op filename fuel st
  = (Done (Output.zero, Some ("apply: " +:+ e)), st2)
  /\ exists ok1 rest,
      trace st2 = trace st ++ Ev NewUUID true :: Ev (Open filename) ok1 :: rest
      /\ (rest = []
          \/ rest = [Ev (Upload (bucket (c_common c))
                           (requestKey op id filename) filename ∅) false]).
Proof.
  intros id Hu. split.
  - unfold ExecuteFilename. unfold bind at 1. rewrite perform_run. fold id.
    unfold bind. fold (afterUUID R st). now rewrite Hu.
  - apply upload_trace in Hu as (evs & Ht & Hc).
    unfold afterUUID in Ht. cbn [trace] in Ht.
    rewrite <- app_assoc in Ht.
    destruct Hc as [(_ & _ & ->)|[(e' & _ & ->)|([=] & _)]];
      cbn [app] in Ht.
    + exists false, []. split; [exact Ht|now left].
    + exists true. eexists. split; [exact Ht|now right].
Qed.

End ClientCallExtras.

(** X17.  The key under which the server answers a request is one the
    call that made the request takes: it contains the identifier of the
    call, it lies under [to_client/], and its operation segment is the
    operation of the request. *)
Theorem response_key_matches_call op id filename :
  noSlash op -> noSlash id ->
  exists k,
    responseKey (requestKey op id filename) = Some k
    /\ strings.Contains k id = true
    /\ strings.HasPrefix k (toClient +:+ "/") = true
    /\ operationOf k = Some op.
Proof.
  intros Hop Hid.
  pose proof (operationOf_requestKey op id filename Hop) as Hk.
  destruct (Base_requestKey op id filename Hid) as [[Hns Hne] Hbase].
  exists (toClient +:+ "/" +:+ op +:+ "/"
            +:+ path.Base (requestKey op id filename)).
  split; [|split; [|split]].
  - unfold responseKey. fold (operationOf (requestKey op id filename)).
    now rewrite Hk.
  - apply Contains_spec.
    destruct (Base_shape filename) as [Hroot|[Hfs Hfn]];
      fold (filepath.Base filename) in *.
    + assert (Hb : path.Base (requestKey op id filename) = id +:+ "_").
      { unfold requestKey. rewrite Hroot.
        replace (toServer +:+ "/" +:+ op +:+ "/" +:+ id +:+ "_" +:+ "/")
          with ((toServer +:+ "/" +:+ op)
                  +:+ String path.slash ((id +:+ "_") +:+ "/"))
          by now rewrite !append_assoc.
        apply Base_app_slash; [now apply noSlash_app|].
        now apply app_not_empty. }
      rewrite Hb. exists (toClient +:+ "/" +:+ op +:+ "/"), "_".
      now rewrite !append_assoc.
    + rewrite Hbase by (intros E; rewrite E in Hfs; discriminate).
      exists (toClient +:+ "/" +:+ op +:+ "/"),
        ("_" +:+ filepath.Base filename).
      now rewrite !append_assoc.
  - apply HasPrefix_toClient.
  - unfold operationOf.
    change ("/" +:+ op +:+ "/" +:+ path.Base (requestKey op id filename))
      with (String path.slash
              (op +:+ String path.slash
                        (path.Base (requestKey op id filename)))).
    rewrite (Split_app _ _ _ noSlash_toClient), (Split_app _ _ _ Hop).
    reflexivity.
Qed.

(** ** Constructors and the provisioner's report *)

Section ConstructorExtras.

Context {W : Type} (R : Runtime W).

(** X18.  A client that [NewClient] returns never has a zero timeout: a
    zero in the options becomes five minutes and every other value, also a
    negative one, is kept.  In the same way a server never has a zero poll
    interval (zero becomes ten seconds), and it serves with exactly the
    handlers of the options.  Each constructor makes one call, the creation
    of its scratch directory. *)
Theorem constructed_defaults (opts : ClientOptions.t)
    (sopts : ServerOptions.t W) (st : State W) :
  (forall cl st',
      NewClient R opts st = (Done (Ok cl), st') ->
      timeout cl <> 0%Z
      /\ timeout cl
         = (if Z.eqb (ClientOptions.Timeout opts) 0 then (5 * Minute)%Z
            else ClientOptions.Timeout opts)
      /\ trace st' = trace st ++ [Ev (MkdirTemp "" "s3rpc_client") true])
  /\ (forall sv st',
         NewServer R sopts st = (Done (Ok sv), st') ->
         pollIntervall sv <> 0%Z
         /\ pollIntervall sv
            = (if Z.eqb (ServerOptions.PollInterval sopts) 0
               then (10 * Second)%Z
               else ServerOptions.PollInterval sopts)
         /\ handlers sv = ServerOptions.Handlers sopts
         /\ trace st' = trace st ++ [Ev (MkdirTemp "" "s3rpc_server") true]).
Proof.
  split.
  - intros cl st' H. unfold NewClient in H.
    destruct (ClientOptions.init opts) as [o [e|]] eqn:Ei; [discriminate|].
    assert (Ht : ClientOptions.Timeout o = ClientOptions.Timeout opts).
    { unfold ClientOptions.init in Ei.
      repeat match type of Ei with
             | context [if ?b then _ else _] => destruct b
             end; now injection Ei as <-. }
    unfold bind, ret in H. rewrite perform_run in H.
    destruct (os_MkdirTemp R "" "s3rpc_client" (world st)) as [[d|e] w1];
      [|discriminate].
    injection H as <- <-. cbn [timeout trace fst is_Ok]. rewrite Ht.
    split; [|now split].
    destruct (Z.eqb_spec (ClientOptions.Timeout opts) 0); [discriminate|assumption].
  - intros sv st' H. unfold NewServer in H.
    destruct (ServerOptions.init sopts) as [o [e|]] eqn:Ei; [discriminate|].
    assert (Ht : ServerOptions.PollInterval o = ServerOptions.PollInterval sopts
                 /\ ServerOptions.Handlers o = ServerOptions.Handlers sopts).
    { unfold ServerOptions.init in Ei.
      repeat match type of Ei with
             | context [if ?b then _ else _] => destruct b
             end; now injection Ei as <-. }
    destruct Ht as [Ht Hh].
    unfold bind, ret in H. rewrite perform_run in H.
    destruct (os_MkdirTemp R "" "s3rpc_server" (world st)) as [[d|e] w1];
      [|discriminate].
    injection H as <- <-. cbn [pollIntervall handlers trace fst is_Ok].
    rewrite Ht, Hh. split; [|now repeat split].
    destruct (Z.eqb_spec (ServerOptions.PollInterval sopts) 0);
      [discriminate|assumption].
Qed.

End ConstructorExtras.

(** X19.  [PrintProvisionResults] writes one line for each queue, then two
    lines for each access key (id, then secret).  The entry at index one is
    named [SERVER] and every other entry, also a third or later one,
    [CLIENT]. *)
Theorem provision_report (outputs : provisioner.CreateResults) :
  let lines := provisioner.PrintProvisionResults outputs in
  let nq := length (provisioner.Queues outputs) in
  length lines = (nq + 2 * length (provisioner.AccessKeys outputs))%nat
  /\ (forall i q,
         provisioner.Queues outputs !! i = Some q ->
         lines !! i
         = Some ("S3RPC_" +:+ provisioner.name i +:+ "_QUEUE=" +:+ q))
  /\ (forall i k,
         provisioner.AccessKeys outputs !! i = Some k ->
         lines !! (nq + 2 * i)%nat
         = Some ("S3RPC_" +:+ provisioner.name i +:+ "_ACCESS_KEY_ID="
                   +:+ provisioner.AccessKeyId k)
         /\ lines !! (nq + 2 * i + 1)%nat
            = Some ("S3RPC_" +:+ provisioner.name i +:+ "_SECRET_ACCESS_KEY="
                      +:+ provisioner.SecretAccessKey k))
  /\ (forall i, provisioner.name i = "SERVER" <-> i = 1%nat).
Proof.
  intros lines nq. unfold lines, provisioner.PrintProvisionResults.
  set (fq := fun (i : nat) (q : string) =>
               "S3RPC_" +:+ provisioner.name i +:+ "_QUEUE=" +:+ q).
  set (fk := fun (i : nat) (k : provisioner.AccessKey) =>
               ["S3RPC_" +:+ provisioner.name i +:+ "_ACCESS_KEY_ID="
                  +:+ provisioner.AccessKeyId k;
                "S3RPC_" +:+ provisioner.name i +:+ "_SECRET_ACCESS_KEY="
                  +:+ provisioner.SecretAccessKey k]).
  assert (Hk : forall (l : list provisioner.AccessKey) (g : nat -> provisioner.AccessKey -> list string),
    (forall i k, length (g i k) = 2%nat) ->
    length (concat (imap g l)) = (2 * length l)%nat
    /\ forall i k, l !! i = Some k ->
         concat (imap g l) !! (2 * i)%nat = g i k !! 0%nat
         /\ concat (imap g l) !! (2 * i + 1)%nat = g i k !! 1%nat).
  { induction l as [|x l IH]; intros g Hg.
    - split; [reflexivity|]. intros i k Hi. now rewrite lookup_nil in Hi.
    - cbn [imap concat]. destruct (IH (g ∘ S)) as [IHl IHi].
      { intros i k. apply Hg. }
      split.
      + rewrite length_app, Hg, IHl. cbn [length]. lia.
      + intros [|i] k Hi.
        * injection Hi as ->. cbn.
          rewrite !lookup_app_l by (rewrite Hg; lia). now split.
        * cbn in Hi. destruct (IHi i k Hi) as [H0 H1].
          replace (2 * S i)%nat with (length (g 0%nat x) + 2 * i)%nat
            by (rewrite Hg; lia).
          replace (length (g 0%nat x) + 2 * i + 1)%nat
            with (length (g 0%nat x) + (2 * i + 1))%nat by lia.
          rewrite !lookup_app_r by lia.
          replace (length (g 0%nat x) + 2 * i - length (g 0%nat x))%nat
            with (2 * i)%nat by lia.
          replace (length (g 0%nat x) + (2 * i + 1) - length (g 0%nat x))%nat
            with (2 * i + 1)%nat by lia.
          now split. }
  destruct (Hk (provisioner.AccessKeys outputs) fk (fun _ _ => eq_refl))
    as [Hlen Hlook].
  split; [|split; [|split]].
  - rewrite length_app, length_imap, Hlen. reflexivity.
  - intros i q Hi. rewrite lookup_app_l.
    + rewrite list_lookup_imap, Hi. reflexivity.
    + rewrite length_imap. now apply lookup_lt_Some in Hi.
  - intros i k Hi. destruct (Hlook i k Hi) as [H0 H1].
    assert (Hn : length (imap fq (provisioner.Queues outputs)) = nq)
      by apply length_imap.
    split.
    + rewrite lookup_app_r by lia.
      replace (nq + 2 * i - length (imap fq (provisioner.Queues outputs)))%nat
        with (2 * i)%nat by lia.
      exact H0.
    + rewrite lookup_app_r by lia.
      replace (nq + 2 * i + 1
               - length (imap fq (provisioner.Queues outputs)))%nat
        with (2 * i + 1)%nat by lia.
      exact H1.
  - intros i. unfold provisioner.name.
    destruct (Nat.eqb_spec i 1); split; intros; try reflexivity;
      try assumption; try discriminate; contradiction.
Qed.

(** ** The further properties on concrete runs *)

(** X1 on a batch of a request, a notification without record and a
    request for an unknown operation; and on a queue whose receive is cut
    short by the deadline. *)
Lemma Receive_messages_witness :
  fst (Receive Sim.R Sim.theCommon
         (Sim.start [[Sim.notifyOf Sim.requestMsg; emptyNote;
                      Sim.notifyOf Sim.unknownOpMsg]]))
  = Done (Ok [Sim.requestMsg; Sim.unknownOpMsg])
  /\ fst (Receive Sim.R Sim.theCommon
            (St (Sim.mkWorld 0 (Some Second) [] 0 None) [] false false))
     = Done (Err "context deadline exceeded").
Proof.
  split.
  - destruct (Receive_messages Sim.R Sim.theCommon
                (Sim.start [[Sim.notifyOf Sim.requestMsg; emptyNote;
                             Sim.notifyOf Sim.unknownOpMsg]]))
      as [_ [[Hex _] Hms]].
    destruct Hex as [ms Hrun].
    { repeat constructor; eexists; (split; [reflexivity|]); cbn; lia. }
    rewrite Hrun. rewrite (Hms ms Hrun). reflexivity.
  - destruct (Receive_messages Sim.R Sim.theCommon
                (St (Sim.mkWorld 0 (Some Second) [] 0 None) [] false false))
      as [_ Herr].
    cbn in Herr. rewrite Herr. reflexivity.
Defined.

(** X2 on a batch whose second notification has two records, and on one
    whose second notification is not JSON. *)
Lemma Receive_rejects_batch_witness :
  fst (Receive Sim.R Sim.theCommon
         (Sim.start [[Sim.notifyOf Sim.requestMsg; doubleNote]]))
  = Done (Err "expected only one record, got 2")
  /\ fst (Receive Sim.R Sim.theCommon
            (Sim.start [[Sim.notifyOf Sim.requestMsg; garbledNote]]))
     = Done (Err "unexpected end of JSON input").
Proof.
  assert (Hpre : Forall (fun r => exists body,
                    Body r = Ok body /\ (length (Records body) <= 1)%nat)
                   [Sim.notifyOf Sim.requestMsg]).
  { repeat constructor; eexists; (split; [reflexivity|]); cbn; lia. }
  split.
  - destruct (Receive_rejects_batch Sim.R Sim.theCommon
                (Sim.start [[Sim.notifyOf Sim.requestMsg; doubleNote]])
                [Sim.notifyOf Sim.requestMsg] doubleNote [] _ eq_refl Hpre)
      as [_ H].
    rewrite (H _ eq_refl); [reflexivity|cbn; lia].
  - destruct (Receive_rejects_batch Sim.R Sim.theCommon
                (Sim.start [[Sim.notifyOf Sim.requestMsg; garbledNote]])
                [Sim.notifyOf Sim.requestMsg] garbledNote [] _ eq_refl Hpre)
      as [H _].
    rewrite (H _ eq_refl). reflexivity.
Defined.




(** X5 on the request of the simulated call: what is uploaded is what the
    handler [dosomething] returned. *)
Lemma message_passed_witness :
  serveMessage Sim.R Sim.server Sim.requestMsg (Sim.start [])
  = (Done Continue,
     snd (serveMessage Sim.R Sim.server Sim.requestMsg (Sim.start [])))
  /\ exists f md out okr w w',
      Sim.dosomething (Input.mk f md) w = (Ok out, w')
      /\ trace (snd (serveMessage Sim.R Sim.server Sim.requestMsg
                       (Sim.start [])))
         = [] ++ answerRequest Sim.theCommon Sim.requestMsg "dosomething"
                   f md out okr.
Proof.
  assert (H : serveMessage Sim.R Sim.server Sim.requestMsg (Sim.start [])
              = (Done Continue,
                 snd (serveMessage Sim.R Sim.server Sim.requestMsg
                        (Sim.start []))))
    by (vm_compute; reflexivity).
  split; [exact H|].
  assert (Hl : handlers Sim.server !! "dosomething" = Some Sim.dosomething)
    by reflexivity.
  destruct (message_passed Sim.R Sim.server Sim.requestMsg (Sim.start []) _ H)
    as [(op & Hop & Hh & _)
       |(op & handle & w1 & f & w2 & o & w3 & w4 & out & w5 & w6 & w7
         & Hop & Hh & _ & _ & _ & _ & Hrun & _ & _ & _ & Ht)].
  - exfalso. injection Hop as <-. rewrite Hl in Hh. discriminate Hh.
  - injection Hop as <-. rewrite Hl in Hh. injection Hh as <-.
    exists f, (o_Metadata o), out, (is_nil (fst (os_Remove Sim.R f w7))),
      w4, w5.
    split; [exact Hrun|exact Ht].
Defined.

(** X7 on a batch whose first message is from another bucket: the request
    behind it is not looked at. *)
Lemma batch_stops_at_first_failure_witness :
  serveMessages Sim.R Sim.server [Sim.otherBucketMsg] (Sim.start [])
  = (Done (Abort (bucketError Sim.R "s3fptest" "elsewhere")), Sim.start [])
  /\ serveMessages Sim.R Sim.server
       ([Sim.otherBucketMsg] ++ [Sim.requestMsg]) (Sim.start [])
     = (Done (Abort (bucketError Sim.R "s3fptest" "elsewhere")), Sim.start []).
Proof.
  assert (H : serveMessages Sim.R Sim.server [Sim.otherBucketMsg]
                (Sim.start [])
              = (Done (Abort (bucketError Sim.R "s3fptest" "elsewhere")),
                 Sim.start [])) by reflexivity.
  split; [exact H|].
  apply (batch_stops_at_first_failure Sim.R Sim.server _ _ _ _ _ H).
  discriminate.
Defined.

(** X8 on one turn of the simulated server. *)
Lemma server_calls_witness :
  Forall (fun e => serverEvent Sim.server e = true)
    (trace (snd (ListenAndServe Sim.R Sim.server 2
                   (Sim.start [[Sim.notifyOf Sim.requestMsg;
                                Sim.notifyOf Sim.unknownOpMsg]]))))
  /\ length (trace (snd (ListenAndServe Sim.R Sim.server 2
                           (Sim.start [[Sim.notifyOf Sim.requestMsg;
                                        Sim.notifyOf Sim.unknownOpMsg]]))))
     = 13%nat.
Proof.
  split; [|vm_compute; reflexivity].
  destruct (server_calls Sim.R Sim.server 2
              (Sim.start [[Sim.notifyOf Sim.requestMsg;
                           Sim.notifyOf Sim.unknownOpMsg]])
              _ _ (surjective_pairing _)) as (evs & Ht & Hf).
  rewrite Ht. exact Hf.
Defined.

(** X9 on a server whose context is done after one idle turn. *)
Lemma serve_returns_nil_only_when_stopped_witness :
  fst (ListenAndServe Sim.R Sim.server 2
         (St (Sim.mkWorld 0 (Some (25 * Second)%Z) [] 0 None) [] false false))
  = Done None
  /\ (quit_closed
        (snd (ListenAndServe Sim.R Sim.server 2
                (St (Sim.mkWorld 0 (Some (25 * Second)%Z) [] 0 None) []
                    false false)))
      = true
      \/ ctx_Done Sim.R
           (world (snd (ListenAndServe Sim.R Sim.server 2
                          (St (Sim.mkWorld 0 (Some (25 * Second)%Z) [] 0 None)
                              [] false false))))
         = true).
Proof.
  split; [vm_compute; reflexivity|].
  apply (serve_returns_nil_only_when_stopped Sim.R Sim.server 2
           (St (Sim.mkWorld 0 (Some (25 * Second)%Z) [] 0 None) [] false false)).
  vm_compute. reflexivity.
Defined.

(** X10 on a fresh simulated server. *)
Lemma closed_server_does_not_poll_witness :
  closeOnce_done (Sim.start [[Sim.notifyOf Sim.requestMsg]])
  = quit_closed (Sim.start [[Sim.notifyOf Sim.requestMsg]])
  /\ (exists err,
         fst (Server_Close Sim.R Sim.server
                (Sim.start [[Sim.notifyOf Sim.requestMsg]]))
         = Done err)
  /\ calls (trace (snd (ListenAndServe Sim.R Sim.server 3
                          (snd (Server_Close Sim.R Sim.server
                                  (Sim.start [[Sim.notifyOf
                                                 Sim.requestMsg]]))))))
     = [CloseQuit; RemoveAll "/tmp/s3rpc"].
Proof.
  split; [reflexivity|].
  destruct (closed_server_does_not_poll Sim.R Sim.server 2
              (Sim.start [[Sim.notifyOf Sim.requestMsg]])
              _ _ eq_refl (surjective_pairing _)) as [He Hl].
  split; [exact He|]. rewrite Hl. reflexivity.
Defined.

(** X11 on a batch of one notification without record. *)
Lemma idle_turn_sleeps_witness :
  calls (trace (snd (ListenAndServe Sim.R Sim.server 1
                       (Sim.start [[emptyNote]]))))
  = [ReceiveMessage "queue-url" 5 7 20; Sleep (10 * Second)]
  /\ fst (ListenAndServe Sim.R Sim.server 1 (Sim.start [[emptyNote]]))
     = Running.
Proof.
  rewrite (idle_turn_sleeps Sim.R Sim.server 0 (Sim.start [[emptyNote]])
             [emptyNote] (Sim.mkWorld Sim.latency None [] 0 None)
             eq_refl eq_refl eq_refl).
  - split; reflexivity.
  - repeat constructor.
Defined.

(** X12 and X13 on the simulated call that finds a foreign message and then
    its response. *)
Lemma client_calls_witness :
  Forall (fun e => clientEvent Sim.theClient "/tmp/go.mod" e = true)
    (trace (snd (ExecuteFilename Sim.R Sim.theClient "dosomething"
                   "/tmp/go.mod" 5
                   (Sim.start [[Sim.notifyOf Sim.foreignMsg;
                                Sim.notifyOf Sim.responseMsg]]))))
  /\ length (trace (snd (ExecuteFilename Sim.R Sim.theClient "dosomething"
                           "/tmp/go.mod" 5
                           (Sim.start [[Sim.notifyOf Sim.foreignMsg;
                                        Sim.notifyOf Sim.responseMsg]]))))
     = 12%nat.
Proof.
  split; [|vm_compute; reflexivity].
  destruct (client_calls Sim.R Sim.theClient "dosomething" "/tmp/go.mod" 5
              (Sim.start [[Sim.notifyOf Sim.foreignMsg;
                           Sim.notifyOf Sim.responseMsg]])
              _ _ (surjective_pairing _)) as (evs & Ht & Hf).
  rewrite Ht. exact Hf.
Defined.

(** A call that runs into its timeout has deleted nothing. *)
Lemma objects_deleted_only_with_response_witness :
  fst (ExecuteFilename Sim.R (Sim.client (30 * Second)) "dosomething"
         "/tmp/go.mod" 5 (Sim.start [[Sim.notifyOf Sim.foreignMsg]]))
  = Done (Output.zero, Some "apply: context deadline exceeded")
  /\ Forall (fun e => isDeleteObject (call e) = false)
       (trace (snd (ExecuteFilename Sim.R (Sim.client (30 * Second))
                      "dosomething" "/tmp/go.mod" 5
                      (Sim.start [[Sim.notifyOf Sim.foreignMsg]])))).
Proof.
  split; [vm_compute; reflexivity|].
  destruct (objects_deleted_only_with_response Sim.R
              (Sim.client (30 * Second)) "dosomething" "/tmp/go.mod" 5
              (Sim.start [[Sim.notifyOf Sim.foreignMsg]])
              _ _ (surjective_pairing _))
    as (evs & Ht & [Hf|(out & t & m & ok1 & ok2 & Hr & _)]).
  - rewrite Ht. exact Hf.
  - exfalso. vm_compute in Hr. discriminate Hr.
Defined.

(** X14 on the same call. *)
Lemma call_error_shape_witness :
  ExecuteFilename Sim.R (Sim.client (30 * Second)) "dosomething"
    "/tmp/go.mod" 5 (Sim.start [[Sim.notifyOf Sim.foreignMsg]])
  = (Done (Output.zero, Some "apply: context deadline exceeded"),
     snd (ExecuteFilename Sim.R (Sim.client (30 * Second)) "dosomething"
            "/tmp/go.mod" 5 (Sim.start [[Sim.notifyOf Sim.foreignMsg]])))
  /\ Output.zero = Output.zero
  /\ exists e, "apply: context deadline exceeded" = "apply: " +:+ e.
Proof.
  assert (H : ExecuteFilename Sim.R (Sim.client (30 * Second)) "dosomething"
                "/tmp/go.mod" 5 (Sim.start [[Sim.notifyOf Sim.foreignMsg]])
              = (Done (Output.zero, Some "apply: context deadline exceeded"),
                 snd (ExecuteFilename Sim.R (Sim.client (30 * Second))
                        "dosomething" "/tmp/go.mod" 5
                        (Sim.start [[Sim.notifyOf Sim.foreignMsg]]))))
    by (vm_compute; reflexivity).
  split; [exact H|].
  exact (call_error_shape Sim.R _ _ _ _ _ _ _ _ H).
Defined.

(** X15 on the response of the simulated call. *)
Lemma response_taken_witness :
  exists ok1 ok2 w6,
    receiveResponse Sim.R Sim.theClient Sim.theUUID Sim.theKey
      Sim.responseMsg (Sim.start [])
    = (Done (ClientReturn
               (Output.mk
                  "/tmp/s3rpc/0_123e4567-e89b-42d3-a456-426614174000_go.mod"
                  {[ "foo" := "bar" ]}) None),
       St w6
          ([] ++ takeResponse Sim.theClient Sim.theKey Sim.responseMsg
                   "/tmp/s3rpc/0_123e4567-e89b-42d3-a456-426614174000_go.mod"
                   ok1 ok2)
          false false).
Proof.
  exact (response_taken Sim.R Sim.theClient Sim.theUUID Sim.theKey
           Sim.responseMsg (Sim.start [])
           _ _ _ (GetObjectOutput _ _) _ _
           eq_refl eq_refl eq_refl eq_refl eq_refl eq_refl).
Defined.

(** X17 on the keys of the simulated call. *)
Lemma response_key_matches_call_witness :
  noSlash "dosomething" /\ noSlash Sim.theUUID
  /\ exists k,
      responseKey (requestKey "dosomething" Sim.theUUID "/tmp/go.mod")
      = Some k
      /\ strings.Contains k Sim.theUUID = true
      /\ strings.HasPrefix k (toClient +:+ "/") = true
      /\ operationOf k = Some "dosomething".
Proof.
  split; [reflexivity|]. split; [reflexivity|].
  apply response_key_matches_call; reflexivity.
Defined.

(** X16 in the world without the input file. *)
Lemma upload_failure_ends_call_witness :
  ExecuteFilename noFile Sim.theClient "dosomething" "/tmp/go.mod" 0
    (Sim.start [])
  = (Done (Output.zero,
           Some "apply: open /tmp/go.mod: no such file or directory"),
     snd (upload noFile Sim.theCommon "/tmp/go.mod" Sim.theKey ∅
            (afterUUID noFile (Sim.start []))))
  /\ calls (trace (snd (upload noFile Sim.theCommon "/tmp/go.mod" Sim.theKey
                          ∅ (afterUUID noFile (Sim.start [])))))
     = [NewUUID; Open "/tmp/go.mod"].
Proof.
  split; [|reflexivity].
  apply (upload_failure_ends_call noFile Sim.theClient "dosomething"
           "/tmp/go.mod" 0 (Sim.start [])).
  reflexivity.
Defined.

(** X18 on the simulated options, which leave timeout and poll interval at
    zero. *)
Lemma constructed_defaults_witness :
  (exists cl,
      fst (NewClient Sim.R (Sim.clientOptions "s3fptest") (Sim.start []))
      = Done (Ok cl)
      /\ timeout cl = (5 * Minute)%Z)
  /\ exists sv,
      fst (NewServer Sim.R (Sim.serverOptions "s3fptest") (Sim.start []))
      = Done (Ok sv)
      /\ pollIntervall sv = (10 * Second)%Z
      /\ handlers sv = {[ "dosomething" := Sim.dosomething ]}.
Proof.
  destruct (constructed_defaults Sim.R (Sim.clientOptions "s3fptest")
              (Sim.serverOptions "s3fptest") (Sim.start [])) as [Hc Hs].
  split.
  - eexists. split; [reflexivity|].
    destruct (Hc _ _ (surjective_pairing _)) as (_ & -> & _). reflexivity.
  - eexists. split; [reflexivity|].
    destruct (Hs _ _ (surjective_pairing _)) as (_ & -> & -> & _).
    split; reflexivity.
Defined.

(** X19 on two entries of each kind and a third queue. *)
Example provision_report_example :
  provisioner.PrintProvisionResults provisioner.example
  = ["S3RPC_CLIENT_QUEUE=https://sqs/client";
     "S3RPC_SERVER_QUEUE=https://sqs/server";
     "S3RPC_CLIENT_QUEUE=https://sqs/third";
     "S3RPC_CLIENT_ACCESS_KEY_ID=AKIACLIENT";
     "S3RPC_CLIENT_SECRET_ACCESS_KEY=s1";
     "S3RPC_SERVER_ACCESS_KEY_ID=AKIASERVER";
     "S3RPC_SERVER_SECRET_ACCESS_KEY=s2"].
Proof. reflexivity. Qed.

Lemma provision_report_witness :
  provisioner.PrintProvisionResults provisioner.example !! 1%nat
  = Some "S3RPC_SERVER_QUEUE=https://sqs/server"
  /\ provisioner.PrintProvisionResults provisioner.example !! 2%nat
     = Some "S3RPC_CLIENT_QUEUE=https://sqs/third"
  /\ provisioner.PrintProvisionResults provisioner.example !! 5%nat
     = Some "S3RPC_SERVER_ACCESS_KEY_ID=AKIASERVER"
  /\ length (provisioner.PrintProvisionResults provisioner.example) = 7%nat.
Proof.
  destruct (provision_report provisioner.example) as (Hl & Hq & Hk & _).
  split; [exact (Hq 1%nat _ eq_refl)|].
  split; [exact (Hq 2%nat _ eq_refl)|].
  split; [exact (proj1 (Hk 1%nat _ eq_refl))|exact Hl].
Defined.
